(** * ialauncher: the game session lifecycle (ialauncher/game.py)

    A shallow embedding of class [Game]: loading a title from its
    [metadata.ini], fetching and unpacking its payload, launching DOSBox in
    autorun or interactive mode, capturing [dosbox.bat] after an interactive
    session and saving the metadata.

    Conventions of the model:
    - text is a [string] over 8-bit characters; a file holds the text that
      Python reads and writes in text mode;
    - the file system is a finite map from paths to nodes, directories and
      regular files.  The paths the program builds from the storage
      location are looked up as they are spelled, a relative one joined to
      the current directory the way [os.path.join] does it (POSIX
      flavour).  The boot command is text of the document that line 74
      tests as a path: that lookup follows it segment by segment from the
      current directory, as the kernel does, through [.], [..] and empty
      segments.  [start] changes directory and then opens
      [self.gamedir]-based paths, which only leads to the same files when
      the storage location is an absolute path: the theorems about the
      command script say so;
    - Python exceptions are an error outcome that keeps the state reached
      when the exception was raised;
    - library calls whose result the code does not control (the HTTP fetch,
      the zip extraction, percent-decoding, the INI text codec of
      [RawConfigParser], the DOSBox session itself) are parameters;
      starting the emulator process itself always succeeds, [DOSBOX] having
      been probed when the module was imported. *)

From stdpp Require Import base option gmap strings list fin_maps.
From Stdlib Require Import Ascii String.

Local Open Scope string_scope.
#[local] Set Warnings "-clear-no-such-hyp".

(** ** Text *)

Definition nl : string := String "010"%char "".

(** [str.isspace] on the code points below 256. *)
Definition py_isspace (c : ascii) : bool :=
  let n := nat_of_ascii c in
  (((9 <=? n) && (n <=? 13)) || ((28 <=? n) && (n <=? 32))
   || (n =? 133) || (n =? 160))%nat.

(** [s.split()]: the maximal whitespace-free runs of [s], in order. *)
Fixpoint py_split (s : string) : list string :=
  match s with
  | EmptyString => []
  | String c r =>
      if py_isspace c then py_split r
      else match r with
           | EmptyString => [String c ""]
           | String c' _ =>
               if py_isspace c' then String c "" :: py_split r
               else match py_split r with
                    | w :: ws => String c w :: ws
                    | [] => [String c ""]
                    end
           end
  end.

(** ['\n'.join(l)]. *)
Definition py_join_nl (l : list string) : string := String.concat nl l.

(** [s.endswith(suf)]: [s] is [suf], or its tail ends with [suf]. *)
Fixpoint endswith (s suf : string) : bool :=
  String.eqb s suf
  || match s with
     | EmptyString => false
     | String _ r => endswith r suf
     end.

(** Iterating a [str] yields its characters as one-character strings. *)
Fixpoint py_chars (s : string) : list string :=
  match s with
  | EmptyString => []
  | String c r => String c "" :: py_chars r
  end.

Definition contains_slash (s : string) : bool :=
  existsb (fun c => Ascii.eqb c "/"%char) (list_ascii_of_string s).

(** [s.split('/')[-1]], which is also [os.path.basename]: what follows the
    last slash. *)
Fixpoint last_segment (s : string) : string :=
  match s with
  | EmptyString => ""
  | String c r =>
      if contains_slash r then last_segment r
      else if Ascii.eqb c "/"%char then r
      else s
  end.

(** [s.split('/')]: the segments of a path, empty ones included. *)
Fixpoint split_slash (s : string) : list string :=
  match s with
  | EmptyString => [""]
  | String c r =>
      if Ascii.eqb c "/"%char then "" :: split_slash r
      else match split_slash r with
           | seg :: rest => String c seg :: rest
           | [] => [String c ""]
           end
  end.

(** What precedes the last slash: the directory an entry lives in.  The
    parent of a top-level entry is the root. *)
Fixpoint before_last_slash (s : string) : string :=
  match s with
  | EmptyString => ""
  | String c r =>
      if contains_slash r then String c (before_last_slash r)
      else ""
  end.

(** [p.startswith('/')]. *)
Definition is_abs (p : string) : bool :=
  match p with
  | String c _ => Ascii.eqb c "/"%char
  | EmptyString => false
  end.

Definition parent (p : string) : string :=
  match before_last_slash p with
  | EmptyString => if is_abs p then "/" else ""
  | d => d
  end.

(** [os.path.join(a, b)] of posixpath, two arguments. *)
Definition path_join (a b : string) : string :=
  if is_abs b then b
  else if String.eqb a "" || endswith a "/" then a ++ b
  else a ++ "/" ++ b.

(** ** The file system *)

Inductive node := Dir | File (content : string).

Definition isdir (fs : gmap string node) (p : string) : bool :=
  match fs !! p with Some Dir => true | _ => false end.

Definition isfile (fs : gmap string node) (p : string) : bool :=
  match fs !! p with Some (File _) => true | _ => false end.

(** ** The parsed metadata document ([RawConfigParser])

    A section maps option names to values; a lookup through a section proxy
    falls back on the [DEFAULT] section. *)

Record RawConfigParser := mkConfig {
  cfg_defaults : gmap string string;
  cfg_sections : gmap string (gmap string string)
}.

Definition empty_config : RawConfigParser := mkConfig ∅ ∅.

(** [c[sec].get(k)], for an existing section [sec]. *)
Definition proxy_get (c : RawConfigParser) (sec : gmap string string)
    (k : string) : option string :=
  match sec !! k with
  | Some v => Some v
  | None => cfg_defaults c !! k
  end.

(** [c[name][k] = v], for an existing section [name]. *)
Definition section_set (c : RawConfigParser) (name k v : string)
    : RawConfigParser :=
  mkConfig (cfg_defaults c) (alter (insert k v) name (cfg_sections c)).

(** ** The title record *)

(** [self.url] is [None], a [str] (only the empty one after loading) or a
    list of URLs. *)
Inductive py_url := UNone | UStr (s : string) | UList (l : list string).

Record Game := mkGame {
  path : string;
  config : RawConfigParser;
  title : option string;
  year : option string;
  emulator_start : option string;
  dosbox_conf : option string;
  url : py_url
}.

(** The attributes [__init__] derives from [path] and never reassigns. *)
Definition gamedir (g : Game) : string := path_join (path g) "dosbox_drive_c".
Definition identifier (g : Game) : string := last_segment (path g).

(** Truth value of an optional string: [None] and [''] are false. *)
Definition truthy (o : option string) : bool :=
  match o with
  | Some s => negb (String.eqb s "")
  | None => false
  end.

Definition str_of (o : option string) : string := default "" o.

Definition url_truthy (u : py_url) : bool :=
  match u with
  | UNone => false
  | UStr s => negb (String.eqb s "")
  | UList l => match l with [] => false | _ => true end
  end.

(** The items a [for] loop or a [join] sees; [None] is not iterable. *)
Definition url_items (u : py_url) : option (list string) :=
  match u with
  | UNone => None
  | UStr s => Some (py_chars s)
  | UList l => Some l
  end.

(** [c['metadata'].get(k)] when the section is there. *)
Definition metadata_get (c : RawConfigParser) (k : string) : option string :=
  sec ← cfg_sections c !! "metadata"; proxy_get c sec k.

(** The value stored under option [k] of section [name]. *)
Definition doc_lookup (c : RawConfigParser) (name k : string) : option string :=
  sec ← cfg_sections c !! name; sec !! k.

(** What [write_metadata] stores under [k]: the fields that are set, under
    the five names of the model. *)
Definition saved_value (g : Game) (k : string) : option string :=
  if String.eqb k "title" then
    if truthy (title g) then Some (str_of (title g)) else None
  else if String.eqb k "year" then
    if truthy (year g) then Some (str_of (year g)) else None
  else if String.eqb k "url" then
    if url_truthy (url g)
    then Some (py_join_nl (default [] (url_items (url g)))) else None
  else if String.eqb k "emulator_start" then
    if truthy (emulator_start g) then Some (str_of (emulator_start g)) else None
  else if String.eqb k "dosbox_conf" then
    if truthy (dosbox_conf g) then Some (str_of (dosbox_conf g)) else None
  else None.

(** The option names this model owns, in the order [write_metadata] goes
    through them. *)
Definition owned_keys : list string :=
  ["title"; "year"; "url"; "emulator_start"; "dosbox_conf"].

(** The document after [write_metadata] has gone through the fields. *)
Definition put_saved (g : Game) (c : RawConfigParser) (k : string)
    : RawConfigParser :=
  match saved_value g k with
  | Some v => section_set c "metadata" k v
  | None => c
  end.

Definition saved_config (g : Game) : RawConfigParser :=
  foldl (put_saved g) (config g) owned_keys.

(** Lines 24-26: the [url] option as [__init__] keeps it. *)
Definition loaded_url (o : option string) : py_url :=
  match o with
  | None => UNone
  | Some u => if negb (String.eqb u "") then UList (py_split u) else UStr u
  end.

(** A URL that [split] gives back whole: not empty, no whitespace. *)
Definition url_token (u : string) : bool :=
  negb (String.eqb u "")
  && forallb (λ c, negb (py_isspace c)) (list_ascii_of_string u).

Definition set_emulator_start (g : Game) (v : option string) : Game :=
  mkGame (path g) (config g) (title g) (year g) v (dosbox_conf g) (url g).

Definition set_config (g : Game) (c : RawConfigParser) : Game :=
  mkGame (path g) c (title g) (year g) (emulator_start g) (dosbox_conf g)
         (url g).

(** ** Machine state, exceptions and the monad of methods *)

Inductive Event :=
  | EvPrint (line : string)
  | EvFetch (u filename : string)
  | EvPopen (prog : string) (args : list string) (cwd : string)
  | EvWait.

Record State := mkState {
  st_self : Game;
  st_fs : gmap string node;
  st_cwd : string;
  st_trace : list Event
}.

Inductive exn :=
  KeyError | TypeError | OSError | URLError | BadZipFile | ParsingError.

Inductive outcome (A : Type) := Ok (a : A) | Raise (e : exn).
Arguments Ok {A} a.
Arguments Raise {A} e.

Definition M (A : Type) : Type := State → outcome A * State.

Definition ret {A} (a : A) : M A := λ s, (Ok a, s).

Definition bind {A B} (m : M A) (f : A → M B) : M B := λ s,
  match m s with
  | (Ok a, s') => f a s'
  | (Raise e, s') => (Raise e, s')
  end.

Declare Scope py_scope.
Delimit Scope py_scope with py.
Bind Scope py_scope with M.
Notation "x ← y ; z" := (bind y (λ x, z))
  (at level 20, y at level 100, z at level 200, only parsing) : py_scope.
Notation "' x ← y ; z" := (bind y (λ x, z))
  (at level 20, x pattern, y at level 100, z at level 200, only parsing)
  : py_scope.
Notation "x ;; z" := (bind x (λ _, z))
  (at level 100, z at level 200, only parsing, right associativity) : py_scope.
Local Open Scope py_scope.

Definition raise {A} (e : exn) : M A := λ s, (Raise e, s).
Definition get_self : M Game := λ s, (Ok (st_self s), s).
Definition get_fs : M (gmap string node) := λ s, (Ok (st_fs s), s).
Definition get_cwd : M string := λ s, (Ok (st_cwd s), s).

Definition set_self (s : State) (g : Game) : State :=
  mkState g (st_fs s) (st_cwd s) (st_trace s).
Definition set_fs (s : State) (fs : gmap string node) : State :=
  mkState (st_self s) fs (st_cwd s) (st_trace s).
Definition set_cwd (s : State) (d : string) : State :=
  mkState (st_self s) (st_fs s) d (st_trace s).
Definition emit (s : State) (e : Event) : State :=
  mkState (st_self s) (st_fs s) (st_cwd s) (st_trace s ++ [e])%list.

Definition put_self (g : Game) : M unit := λ s, (Ok (), set_self s g).
Definition put_fs (fs : gmap string node) : M unit := λ s, (Ok (), set_fs s fs).
Definition log (e : Event) : M unit := λ s, (Ok (), emit s e).

Fixpoint for_each {A} (l : list A) (body : A → M unit) : M unit :=
  match l with
  | [] => ret ()
  | x :: r => body x;; for_each r body
  end.

(** ** Operating-system calls *)

(** The key of a path [p] that the program has built from the storage
    location: [p] as it is spelled, joined to the current directory. *)
Definition resolve (s : State) (p : string) : string := path_join (st_cwd s) p.

Definition resolved (p : string) : M string := λ s, (Ok (resolve s p), s).

Definition os_path_isdir (p : string) : M bool :=
  λ s, (Ok (isdir (st_fs s) (resolve s p)), s).

Definition os_path_isfile (p : string) : M bool :=
  λ s, (Ok (isfile (st_fs s) (resolve s p)), s).

(** The root is a directory whatever the map holds. *)
Definition is_directory (fs : gmap string node) (k : string) : bool :=
  String.eqb k "/" || isdir fs k.

(** The key the kernel reaches from the directory [cur] along the segments
    [segs]: an empty segment and [.] stay in [cur] and [..] goes to its
    parent, all three only when [cur] is a directory; a name is the entry
    of that name in [cur]. *)
Fixpoint walk (fs : gmap string node) (cur : string) (segs : list string)
    : option string :=
  match segs with
  | [] => Some cur
  | seg :: rest =>
      if String.eqb seg "" || String.eqb seg "." then
        if is_directory fs cur then walk fs cur rest else None
      else if String.eqb seg ".." then
        if is_directory fs cur then walk fs (parent cur) rest else None
      else walk fs (path_join cur seg) rest
  end.

(** Whether [p], followed from the directory [cwd] (from the root when it
    is absolute), leads to a regular file; the empty path leads nowhere. *)
Definition isfile_from (fs : gmap string node) (cwd p : string) : bool :=
  if String.eqb p "" then false
  else match walk fs (if is_abs p then "/" else cwd) (split_slash p) with
       | Some k => isfile fs k
       | None => false
       end.

(** [os.path.isfile(p)] for a text [p] that does not come from the storage
    location. *)
Definition os_path_isfile_text (p : string) : M bool :=
  λ s, (Ok (isfile_from (st_fs s) (st_cwd s) p), s).

Definition os_chdir (p : string) : M unit := λ s,
  if isdir (st_fs s) (resolve s p) then (Ok (), set_cwd s (resolve s p))
  else (Raise OSError, s).

(** [with open(p, 'w') as f: f.write(content)].  Opening fails on a
    directory, on a name without a last component and in a directory that
    does not exist. *)
Definition open_w (p content : string) : M unit := λ s,
  let k := resolve s p in
  if String.eqb (last_segment k) "" || isdir (st_fs s) k
     || negb (isdir (st_fs s) (parent k))
  then (Raise OSError, s)
  else (Ok (), set_fs s (<[k := File content]> (st_fs s))).

(** [with open(p, 'r') as f: f.read()]. *)
Definition open_r (p : string) : M string := λ s,
  match st_fs s !! resolve s p with
  | Some (File c) => (Ok c, s)
  | _ => (Raise OSError, s)
  end.

Definition os_remove (p : string) : M unit := λ s,
  if isfile (st_fs s) (resolve s p)
  then (Ok (), set_fs s (delete (resolve s p) (st_fs s)))
  else (Raise OSError, s).

(** The proper prefixes of a path that end just before a slash. *)
Fixpoint prefixes_at_slash (pre s : string) : list string :=
  match s with
  | EmptyString => []
  | String c r =>
      ((if Ascii.eqb c "/"%char && negb (String.eqb pre "") then [pre] else [])
       ++ prefixes_at_slash (pre ++ String c "") r)%list
  end.

Fixpoint mkdir_chain (fs : gmap string node) (ks : list string)
    : option (gmap string node) :=
  match ks with
  | [] => Some fs
  | k :: r =>
      match fs !! k with
      | Some Dir => mkdir_chain fs r
      | Some (File _) => None
      | None => mkdir_chain (<[k := Dir]> fs) r
      end
  end.

(** [os.makedirs(p, exist_ok=True)]: the directory and its missing
    ancestors are created; a file in the way is an error. *)
Definition os_makedirs (p : string) : M unit := λ s,
  let k := resolve s p in
  match mkdir_chain (st_fs s) (prefixes_at_slash "" k ++ [k])%list with
  | Some fs => (Ok (), set_fs s fs)
  | None => (Raise OSError, s)
  end.

(** [shutil.copy(src, dst)]: into [dst] when it is a directory, under the
    source's base name; onto [dst] otherwise. *)
Definition shutil_copy (src dst : string) : M unit :=
  c ← open_r src;
  d ← os_path_isdir dst;
  let target := if d then path_join dst (last_segment src) else dst in
  a ← resolved src;
  b ← resolved target;
  if String.eqb a b then raise OSError else open_w target c.

(** ** The methods of [Game] *)

Definition batfile (g : Game) : string := path_join (gamedir g) "dosbox.bat".
Definition conffile (g : Game) : string := path_join (gamedir g) "dosbox.conf".
Definition inifile (g : Game) : string := path_join (path g) "metadata.ini".

(** What the program takes from its libraries and from the outside. *)
Class Env := {
  (** the emulator command found by [get_dosbox_path] at import time *)
  DOSBOX : string;
  (** [urllib.parse.unquote] *)
  unquote : string → string;
  (** what [urlretrieve] downloads from a URL; [None] when the fetch fails *)
  urlopen : string → option string;
  (** [ZipFile(archive).extractall(target)] on a file system; [None] when
      the archive is not a zip file or cannot be unpacked *)
  zip_extractall :
    string → string → gmap string node → option (gmap string node);
  (** the files as the DOSBox process leaves them when it exits, from the
      files at launch, for a command line and its working directory *)
  dosbox_session :
    string → list string → string → gmap string node → gmap string node;
  (** [RawConfigParser.write] and [RawConfigParser.read] on the text of a
      file; [None] when the text does not parse *)
  ini_write : RawConfigParser → string;
  ini_parse : string → option RawConfigParser
}.

Section Lifecycle.

Context `{!Env}.

(** [c.read(file)] on a fresh parser: a file that cannot be opened is
    skipped. *)
Definition config_read (fs : gmap string node) (file : string)
    : outcome RawConfigParser :=
  match fs !! file with
  | Some (File text) =>
      match ini_parse text with
      | Some c => Ok c
      | None => Raise ParsingError
      end
  | _ => Ok empty_config
  end.

(** [Game.__init__] (lines 14-26), run in current directory [cwd]. *)
Definition Game_init (fs : gmap string node) (cwd p : string) : outcome Game :=
  match config_read fs (path_join cwd (path_join p "metadata.ini")) with
  | Raise e => Raise e
  | Ok c =>
      match cfg_sections c !! "metadata" with
      | None => Raise KeyError
      | Some sec =>
          Ok (mkGame p c
                (proxy_get c sec "title")
                (proxy_get c sec "year")
                (proxy_get c sec "emulator_start")
                (proxy_get c sec "dosbox_conf")
                (loaded_url (proxy_get c sec "url")))
      end
  end.

(** [self.config['metadata'][k] = v]. *)
Definition config_set (k v : string) : M unit := λ s,
  let g := st_self s in
  match cfg_sections (config g) !! "metadata" with
  | None => (Raise KeyError, s)
  | Some _ =>
      (Ok (), set_self s (set_config g (section_set (config g) "metadata" k v)))
  end.

(** [Game.write_metadata] (lines 131-144). *)
Definition write_metadata : M unit :=
  g ← get_self;
  (if truthy (title g) then config_set "title" (str_of (title g))
   else ret ());;
  (if truthy (year g) then config_set "year" (str_of (year g))
   else ret ());;
  (if url_truthy (url g)
   then config_set "url" (py_join_nl (default [] (url_items (url g))))
   else ret ());;
  (if truthy (emulator_start g)
   then config_set "emulator_start" (str_of (emulator_start g))
   else ret ());;
  (if truthy (dosbox_conf g)
   then config_set "dosbox_conf" (str_of (dosbox_conf g))
   else ret ());;
  g' ← get_self;
  open_w (inifile g) (ini_write (config g')).

(** [request.urlretrieve(u, filename)]. *)
Definition urlretrieve (u filename : string) : M unit :=
  log (EvFetch u filename);;
  match urlopen u with
  | None => raise URLError
  | Some body => open_w filename body
  end.

(** [Game.extract_file] (lines 125-129). *)
Definition extract_file (zipfile : string) : M unit :=
  g ← get_self;
  archive ← open_r zipfile;
  target ← resolved (gamedir g);
  fs ← get_fs;
  match zip_extractall archive target fs with
  | None => raise BadZipFile
  | Some fs' =>
      put_fs fs';;
      f ← os_path_isfile (path_join (gamedir g) "dosbox.conf");
      if f then os_remove (path_join (gamedir g) "dosbox.conf") else ret ()
  end.

(** The test of line 118. *)
Definition archive_name (filename : string) : bool :=
  endswith filename "zip" || endswith filename "ZIP"
  || endswith filename "play".

(** Lines 118-123: what is done with a file once it is there. *)
Definition unpack_or_copy (filename : string) : M unit :=
  g ← get_self;
  if archive_name filename then
    log (EvPrint ("Extracting " ++ filename));;
    extract_file filename
  else
    os_makedirs (gamedir g);;
    shutil_copy filename (gamedir g).

(** The body of the loop of [download_files] (lines 114-123). *)
Definition download_one (u : string) : M unit :=
  let filename := unquote (last_segment u) in
  f ← os_path_isfile filename;
  (if negb f then
     log (EvPrint ("Downloading " ++ filename));;
     urlretrieve u filename
   else ret ());;
  unpack_or_copy filename.

(** [Game.download_files] (lines 111-123). *)
Definition download_files : M unit :=
  g ← get_self;
  os_chdir (path g);;
  match url_items (url g) with
  | None => raise TypeError
  | Some us => for_each us download_one
  end.

(** Lines 59-60 of [start]: the payload is fetched only when its directory
    is missing. *)
Definition ensure_payload : M unit :=
  g ← get_self;
  d ← os_path_isdir (gamedir g);
  if negb d then download_files else ret ().

(** Lines 61-70 of [start]: enter the payload directory, write the
    emulator configuration; the result is [dosbox_args]. *)
Definition prepare : M (list string) :=
  g ← get_self;
  os_chdir (gamedir g);;
  let dosbox_args := ["-fullscreen"] in
  if truthy (dosbox_conf g) then
    open_w (conffile g) (str_of (dosbox_conf g));;
    ret (dosbox_args ++ ["-userconf"; "-conf"; "dosbox.conf"])%list
  else ret dosbox_args.

(** Lines 65 and 72-94 of [start]: the command script and the run target;
    the result is [(autorun, dosbox_run)]. *)
Definition select_run (autorun : bool) : M (bool * string) :=
  g ← get_self;
  let dosbox_run := "." in
  if truthy (emulator_start g) then
    if autorun then
      f ← os_path_isfile_text (str_of (emulator_start g));
      if f then ret (autorun, str_of (emulator_start g))
      else
        open_w (batfile g)
          ("@echo off" ++ nl ++ "cls" ++ nl ++ str_of (emulator_start g));;
        ret (autorun, "dosbox.bat")
    else
      open_w (batfile g) (str_of (emulator_start g));;
      ret (autorun, dosbox_run)
  else
    f ← os_path_isfile (batfile g);
    (if negb f then open_w (batfile g) nl else ret ());;
    ret (false, dosbox_run).

(** [subprocess.Popen([DOSBOX, dosbox_run] + dosbox_args)]: the child
    inherits the current directory. *)
Definition popen (args : list string) : M (list string * string) := λ s,
  (Ok (args, st_cwd s), emit s (EvPopen DOSBOX args (st_cwd s))).

(** [child_process.wait()]. *)
Definition wait (child : list string * string) : M unit := λ s,
  (Ok (),
   emit (set_fs s (dosbox_session DOSBOX (fst child) (snd child) (st_fs s)))
        EvWait).

(** Lines 105-109 of [start]: the command script is read back. *)
Definition capture : M unit :=
  g ← get_self;
  f ← os_path_isfile (batfile g);
  if f then
    text ← open_r (batfile g);
    put_self (set_emulator_start g (Some text));;
    if truthy (Some text) then write_metadata else ret ()
  else ret ().

(** [Game.start] (lines 34-109). *)
Definition start (autorun : bool) : M unit :=
  ensure_payload;;
  dosbox_args ← prepare;
  '(autorun, dosbox_run) ← select_run autorun;
  let dosbox_args :=
    if autorun then (dosbox_args ++ ["-exit"])%list else dosbox_args in
  let dosbox_run := if autorun then dosbox_run else "." in
  child ← popen (dosbox_run :: dosbox_args);
  if negb autorun then wait child;; capture else ret ().

End Lifecycle.

(** ** The classification of fetched files as the specification words it

    Archive-like: a [.zip] suffix compared without regard to case, or no
    extension and a name that ends in [play]. *)

Definition ascii_lower (c : ascii) : ascii :=
  let n := nat_of_ascii c in
  if ((65 <=? n) && (n <=? 90))%nat then ascii_of_nat (n + 32) else c.

Fixpoint lower (s : string) : string :=
  match s with
  | EmptyString => ""
  | String c r => String (ascii_lower c) (lower r)
  end.

Definition has_extension (filename : string) : bool :=
  existsb (fun c => Ascii.eqb c "."%char) (list_ascii_of_string filename).

Definition spec_archive_like (filename : string) : bool :=
  endswith (lower filename) ".zip"
  || (negb (has_extension filename) && endswith filename "play").

(** ** The executable shortcut as the specification words it

    The boot command is a path to an existing executable file inside the
    payload directory.  The store has no notion of an executable file;
    being inside the payload directory is the part that can be said: the
    path, taken from the payload directory, lies below it. *)
Definition spec_inside_payload (g : Game) (p : string) : bool :=
  String.prefix (gamedir g ++ "/") (path_join (gamedir g) p).

(** ** A text codec in the manner of [RawConfigParser]

    The writer prints each section as a header line, one [key = value] line
    per option with the continuation lines of a value indented by a tab, and
    a blank line.  The reader takes such text back: header lines, option
    lines split at the first [=] or [:], indented continuation lines,
    comment lines dropped, names and values stripped.  It instantiates the
    codec of [Env] where a concrete machine is run. *)

Module IniText.

Definition tab : string := String "009"%char "".

Fixpoint indent_newlines (v : string) : string :=
  match v with
  | EmptyString => ""
  | String c r =>
      if Ascii.eqb c "010"%char then String c (tab ++ indent_newlines r)
      else String c (indent_newlines r)
  end.

Definition write_item (kv : string * string) : string :=
  fst kv ++ " = " ++ indent_newlines (snd kv) ++ nl.

Definition write_section (name : string) (sec : gmap string string) : string :=
  "[" ++ name ++ "]" ++ nl
  ++ String.concat "" (write_item <$> map_to_list sec) ++ nl.

Definition write (c : RawConfigParser) : string :=
  (if decide (cfg_defaults c = ∅) then ""
   else write_section "DEFAULT" (cfg_defaults c))
  ++ String.concat ""
       ((λ ns, write_section (fst ns) (snd ns)) <$> map_to_list (cfg_sections c)).

Fixpoint split_lines (s : string) : list string :=
  match s with
  | EmptyString => [""]
  | String c r =>
      if Ascii.eqb c "010"%char then "" :: split_lines r
      else match split_lines r with
           | l :: ls => String c l :: ls
           | [] => [String c ""]
           end
  end.

Fixpoint lstrip (s : string) : string :=
  match s with
  | EmptyString => ""
  | String c r => if py_isspace c then lstrip r else s
  end.

Definition rstrip (s : string) : string := String.rev (lstrip (String.rev s)).
Definition strip (s : string) : string := rstrip (lstrip s).

Fixpoint split_delim (s : string) : option (string * string) :=
  match s with
  | EmptyString => None
  | String c r =>
      if Ascii.eqb c "="%char || Ascii.eqb c ":"%char then Some ("", r)
      else match split_delim r with
           | Some (a, b) => Some (String c a, b)
           | None => None
           end
  end.

(** The reader's cursor: the document so far, the section and the option
    that continuation lines extend. *)
Record cursor := mkCursor {
  cur_doc : RawConfigParser;
  cur_section : option string;
  cur_option : option string
}.

Definition section_of (c : RawConfigParser) (name : string) : gmap string string :=
  if String.eqb name "DEFAULT" then cfg_defaults c
  else default ∅ (cfg_sections c !! name).

Definition with_section (c : RawConfigParser) (name : string)
    (sec : gmap string string) : RawConfigParser :=
  if String.eqb name "DEFAULT" then mkConfig sec (cfg_sections c)
  else mkConfig (cfg_defaults c) (<[name := sec]> (cfg_sections c)).

Definition starts_with_space (line : string) : bool :=
  match line with
  | String c _ => py_isspace c
  | EmptyString => false
  end.

Definition header_name (v : string) : option string :=
  match v with
  | String c r =>
      if Ascii.eqb c "["%char && endswith r "]" && (2 <=? String.length r)%nat
      then Some (String.substring 0 (String.length r - 1) r)
      else None
  | EmptyString => None
  end.

Definition is_comment (v : string) : bool :=
  String.prefix "#" v || String.prefix ";" v.

Definition extend (c : cursor) (text : string) : cursor :=
  match cur_section c, cur_option c with
  | Some name, Some k =>
      let sec := section_of (cur_doc c) name in
      let old := default "" (sec !! k) in
      mkCursor (with_section (cur_doc c) name (<[k := old ++ nl ++ text]> sec))
               (cur_section c) (cur_option c)
  | _, _ => c
  end.

Definition read_line (c : cursor) (line : string) : option cursor :=
  let v := strip line in
  if String.eqb v "" then Some (extend c "")
  else if is_comment v then Some c
  else if starts_with_space line && bool_decide (is_Some (cur_option c))
  then Some (extend c v)
  else match header_name v with
       | Some name =>
           Some (mkCursor
                   (with_section (cur_doc c) name (section_of (cur_doc c) name))
                   (Some name) None)
       | None =>
           match cur_section c, split_delim v with
           | Some name, Some (k, x) =>
               let k := lower (strip k) in
               if String.eqb k "" then None
               else Some (mkCursor
                            (with_section (cur_doc c) name
                               (<[k := strip x]> (section_of (cur_doc c) name)))
                            (Some name) (Some k))
           | _, _ => None
           end
       end.

Fixpoint read_lines (c : cursor) (ls : list string) : option cursor :=
  match ls with
  | [] => Some c
  | l :: r =>
      match read_line c l with
      | Some c' => read_lines c' r
      | None => None
      end
  end.

Definition parse (text : string) : option RawConfigParser :=
  match read_lines (mkCursor empty_config None None) (split_lines text) with
  | Some c =>
      Some (mkConfig (rstrip <$> cfg_defaults (cur_doc c))
                     ((λ sec : gmap string string, rstrip <$> sec)
                        <$> cfg_sections (cur_doc c)))
  | None => None
  end.

End IniText.

(** ** A concrete machine

    Three titles under [/games]: [foo], configured and unpacked; [blank],
    unpacked and without boot command; [bar], neither unpacked nor given
    URLs.  The emulator session is a parameter of the environment. *)

Module Sample.

Definition foo_doc : RawConfigParser :=
  mkConfig ∅
    {[ "metadata" :=
         {[ "title" := "Foo"; "year" := "1990"; "emulator_start" := "FOO.EXE";
            "url" := "http://x/a.zip"; "collection" := "softwarelibrary" ]} ]}.

Definition blank_doc : RawConfigParser :=
  mkConfig ∅ {[ "metadata" := {[ "title" := "Blank" ]} ]}.

Definition bar_doc : RawConfigParser :=
  mkConfig ∅ {[ "metadata" := {[ "title" := "Bar" ]} ]}.

Definition disk : gmap string node :=
  list_to_map
    [ ("/", Dir);
      ("/games", Dir);
      ("/games/foo", Dir);
      ("/games/foo/metadata.ini", File (IniText.write foo_doc));
      ("/games/foo/a.zip", File "PK");
      ("/games/foo/GAME.Zip", File "PK");
      ("/games/foo/DATA.EXE", File "MZ");
      ("/games/foo/dosbox_drive_c", Dir);
      ("/games/foo/dosbox_drive_c/FOO.EXE", File "MZ");
      ("/games/blank", Dir);
      ("/games/blank/metadata.ini", File (IniText.write blank_doc));
      ("/games/blank/dosbox_drive_c", Dir);
      ("/games/bar", Dir);
      ("/games/bar/metadata.ini", File (IniText.write bar_doc)) ].

(** An archive holds a game file and a configuration of its own. *)
Definition unzip (archive target : string) (fs : gmap string node)
    : option (gmap string node) :=
  if String.eqb archive "PK"
  then Some (<[target ++ "/dosbox.conf" := File "[sdl]"]>
               (<[target ++ "/GAME.EXE" := File "MZ"]> (<[target := Dir]> fs)))
  else None.

Definition env (session : gmap string node → gmap string node) : Env :=
  {| DOSBOX := "dosbox";
     unquote := id;
     urlopen := λ _, None;
     zip_extractall := unzip;
     dosbox_session := λ _ _ _, session;
     ini_write := IniText.write;
     ini_parse := IniText.parse |}.

(** The user leaves at once. *)
Definition idle (fs : gmap string node) : gmap string node := fs.

(** The user empties the command script of [foo], then leaves. *)
Definition truncating (fs : gmap string node) : gmap string node :=
  <["/games/foo/dosbox_drive_c/dosbox.bat" := File ""]> fs.

(** The user appends a line to the command script of [foo], then leaves. *)
Definition appending (fs : gmap string node) : gmap string node :=
  <["/games/foo/dosbox_drive_c/dosbox.bat" :=
      File ("FOO.EXE" ++ nl ++ "BAR.EXE" ++ nl)]> fs.

Definition foo : Game :=
  mkGame "/games/foo" foo_doc (Some "Foo") (Some "1990") (Some "FOO.EXE")
         None (UList ["http://x/a.zip"]).

(** [foo] with every field set. *)
Definition foo_full : Game :=
  mkGame "/games/foo" foo_doc (Some "Foo II") (Some "1991")
         (Some ("FOO.EXE" ++ nl ++ "BAR.EXE")) (Some ("[cpu]" ++ nl ++ "cycles=max"))
         (UList ["http://x/a.zip"; "http://x/b.zip"]).

(** [foo] after its list of URLs has been set to the empty list. *)
Definition foo_no_urls : Game :=
  mkGame "/games/foo" foo_doc (Some "Foo") (Some "1990") (Some "FOO.EXE")
         None (UList []).

Definition blank : Game :=
  mkGame "/games/blank" blank_doc (Some "Blank") None None None UNone.

Definition bar : Game :=
  mkGame "/games/bar" bar_doc (Some "Bar") None None None UNone.

Definition machine (g : Game) : State := mkState g disk "/" [].

(** The machine inside the storage directory of [foo], where
    [download_files] works. *)
Definition fetching : State := mkState foo disk "/games/foo" [].

End Sample.

(** ** The rest of [Game] *)

(** [Game.__lt__] and [Game.__gt__] (lines 28-32): titles are ordered by
    their identifiers, compared as Python compares strings, character by
    character and the shorter first. *)
Definition Game_lt (a b : Game) : bool :=
  match String.compare (identifier a) (identifier b) with
  | Lt => true
  | _ => false
  end.

Definition Game_gt (a b : Game) : bool :=
  match String.compare (identifier a) (identifier b) with
  | Gt => true
  | _ => false
  end.

(** [Game.get_titlescreen] (lines 146-151). *)
Definition get_titlescreen : M (option string) :=
  g ← get_self;
  f ← os_path_isfile (path_join (path g) "title.png");
  if f then ret (Some (path_join (path g) "title.png")) else ret None.

(** The URLs fetched in a stretch of trace, in order. *)
Fixpoint fetched_urls (t : list Event) : list string :=
  match t with
  | [] => []
  | EvFetch u _ :: r => u :: fetched_urls r
  | _ :: r => fetched_urls r
  end.

(** The number of processes started in a stretch of trace. *)
Fixpoint launch_count (t : list Event) : nat :=
  match t with
  | [] => 0
  | EvPopen _ _ _ :: r => S (launch_count r)
  | _ :: r => launch_count r
  end.

(** The trace grows by events that fetch nothing. *)
Definition fetchless (s s' : State) : Prop :=
  ∃ new, st_trace s' = (st_trace s ++ new)%list ∧ fetched_urls new = [].

(** More titles for the concrete machine. *)
Module MoreSamples.

(** A document without [metadata] section, whose [DEFAULT] has a title. *)
Definition odd_doc : RawConfigParser :=
  mkConfig {[ "title" := "Odd" ]} {[ "other" := {[ "k" := "v" ]} ]}.

Definition odd_disk : gmap string node :=
  <["/games/odd/metadata.ini" := File (IniText.write odd_doc)]>
    (<["/games/odd" := Dir]> Sample.disk).

(** [foo] with a URL that is not in its storage location, before the one
    that is. *)
Definition foo_two_urls : Game :=
  mkGame "/games/foo" Sample.foo_doc (Some "Foo") (Some "1990")
         (Some "FOO.EXE") None (UList ["http://x/b.zip"; "http://x/a.zip"]).

(** [bar] as loaded from a document with an empty [url] option. *)
Definition bar_empty_url : Game :=
  mkGame "/games/bar" Sample.bar_doc (Some "Bar") None None None (UStr "").

(** [foo] with another boot command. *)
Definition foo_booting (boot : string) : Game :=
  mkGame "/games/foo" Sample.foo_doc (Some "Foo") (Some "1990") (Some boot)
         None (UList ["http://x/a.zip"]).

(** The disk with an archive whose name has no dot. *)
Definition disk_with_unzip : gmap string node :=
  <["/games/foo/unzip" := File "PK"]> Sample.disk.

(** The disk with a script in the payload directory of [blank]. *)
Definition disk_with_script : gmap string node :=
  <["/games/blank/dosbox_drive_c/dosbox.bat" := File "GAME.EXE"]> Sample.disk.

End MoreSamples.

(** The state in which [start] reads the script back: the record [g] in
    its payload directory, after an interactive session started on the
    files [fs3] with the configuration arguments [args], [trace] being the
    events before the launch. *)
Definition after_session `{!Env} (g : Game) (trace : list Event)
    (args : list string) (fs3 : gmap string node) : State :=
  mkState g (dosbox_session DOSBOX ("." :: args) (gamedir g) fs3) (gamedir g)
    (trace ++ [EvPopen DOSBOX ("." :: args) (gamedir g); EvWait]).

(** The events of a download: lines printed and fetches. *)
Definition download_event (e : Event) : Prop :=
  match e with
  | EvPrint _ | EvFetch _ _ => True
  | _ => False
  end.

(** The trace grows by events of a download. *)
Definition downloading (s s' : State) : Prop :=
  ∃ new, st_trace s' = (st_trace s ++ new)%list ∧ Forall download_event new.

(** Everything in the record but the boot command and the document. *)
Definition same_settings (s s' : State) : Prop :=
  path (st_self s') = path (st_self s)
  ∧ title (st_self s') = title (st_self s)
  ∧ year (st_self s') = year (st_self s)
  ∧ dosbox_conf (st_self s') = dosbox_conf (st_self s)
  ∧ url (st_self s') = url (st_self s).

(** ** Locating the emulator (ialauncher/dosbox.py) *)

Module Dosbox.

(** What the probes see of the host. *)
Class Host := {
  (** [subprocess.run([path, '--version'])] runs and returns status 0 *)
  answers_version : string → bool;
  (** [os.environ] *)
  environ : string → option string;
  (** [glob.glob] *)
  glob : string → list string;
  (** [input] returns (it fails in a windowed application) *)
  input_returns : bool
}.

Definition error : string :=
  nl ++ nl
  ++ "Uh-oh! The program DOSBox could not be found on your system. IA Launcher acts as a frontend for DOSBox: when you select a game, it starts DOSBox with the right arguments to play that game."
  ++ nl ++ nl
  ++ "Please visit https://www.dosbox.com/ to learn more about DOSBox and download the correct installer for your operating system."
  ++ nl.

(** How [get_dosbox_path] ends: it returns a command, the interpreter
    exits, or [DOSBoxNotFound] is raised. *)
Inductive located :=
  | Found (command : string)
  | SysExit (status : nat)
  | DOSBoxNotFound (message : string).

Section Probes.

Context `{!Host}.

(** [try_path] (lines 10-12); [None] stands for the exception that the
    caller's bare [except] swallows. *)
Definition try_path (p : string) : option string :=
  if answers_version p then Some p else None.

(** The Windows probe (lines 31-33): the first match of the pattern
    under [ProgramFiles(x86)]; a missing variable or an empty match list
    raises, like a failed probe. *)
Definition try_windows : option string :=
  match environ "ProgramFiles(x86)" with
  | None => None
  | Some pf =>
      match glob (pf ++ "\dosbox*\dosbox.exe") with
      | [] => None
      | p :: _ => try_path p
      end
  end.

(** [get_dosbox_path] (lines 14-47): the outcome and the lines printed. *)
Definition get_dosbox_path : located * list string :=
  match try_path "dosbox" with
  | Some p => (Found p, [])
  | None =>
  match try_path "/Applications/dosbox.app/Contents/MacOS/DOSBox" with
  | Some p => (Found p, [])
  | None =>
  match try_path "open -a DOSBox" with
  | Some p => (Found p, [])
  | None =>
  match try_windows with
  | Some p => (Found p, [])
  | None =>
      if input_returns then (SysExit 1, [error])
      else (DOSBoxNotFound error, [error])
  end end end end.

(** The commands [get_dosbox_path] probes, in its order: three fixed
    ones, then the first Windows match if there is one. *)
Definition candidates : list string :=
  ["dosbox"; "/Applications/dosbox.app/Contents/MacOS/DOSBox"; "open -a DOSBox"]
  ++ match environ "ProgramFiles(x86)" with
     | None => []
     | Some pf =>
         match glob (pf ++ "\dosbox*\dosbox.exe") with
         | [] => []
         | p :: _ => [p]
         end
     end.

End Probes.

(** A Windows host with two installs, of which only the second answers. *)
Definition two_installs : Host :=
  {| answers_version := λ p, String.eqb p "C:\PF\dosbox-0.74\dosbox.exe";
     environ := λ v, if String.eqb v "ProgramFiles(x86)" then Some "C:\PF" else None;
     glob := λ _, ["C:\PF\dosbox-0.73\dosbox.exe";
                   "C:\PF\dosbox-0.74\dosbox.exe"];
     input_returns := false |}.

(** A host where [dosbox] is on the path. *)
Definition on_path : Host :=
  {| answers_version := λ p, String.eqb p "dosbox";
     environ := λ _, None;
     glob := λ _, [];
     input_returns := true |}.

End Dosbox.

(** The configuration arguments of lines 67-70. *)
Definition conf_args (g : Game) : list string :=
  if truthy (dosbox_conf g) then ["-userconf"; "-conf"; "dosbox.conf"] else [].

(** ** Relations between the state before and after a call *)

(** A call is [stable] for a relation when every run of it, normal or
    exceptional, takes a state to a related one. *)
Definition stable {A} (R : State → State → Prop) (m : M A) : Prop :=
  ∀ s r s', m s = (r, s') → R s s'.

Definition same_self (s s' : State) : Prop := st_self s' = st_self s.
Definition same_trace (s s' : State) : Prop := st_trace s' = st_trace s.
Definition same_cwd (s s' : State) : Prop := st_cwd s' = st_cwd s.
Definition same_fs (s s' : State) : Prop := st_fs s' = st_fs s.

Definition no_launch (e : Event) : Prop :=
  match e with
  | EvPopen _ _ _ => False
  | _ => True
  end.

(** The trace grows by events that start no process. *)
Definition quietly (s s' : State) : Prop :=
  ∃ new, st_trace s' = (st_trace s ++ new)%list ∧ Forall no_launch new.

(** * Properties *)

(** ** Text and paths *)

Lemma string_eqb_false_iff (a b : string) : String.eqb a b = false ↔ a ≠ b.
Proof.
  destruct (String.eqb_spec a b); split; intros; congruence.
Qed.

Lemma app_cons (c : ascii) (a b : string) : String c a ++ b = String c (a ++ b).
Proof. reflexivity. Qed.

Lemma app_nil_l (b : string) : "" ++ b = b.
Proof. reflexivity. Qed.

Ltac str_simpl := rewrite ?app_cons, ?app_nil_l; simpl.

Lemma string_app_nil_r (s : string) : s ++ "" = s.
Proof. induction s; str_simpl; congruence. Qed.

Lemma string_app_assoc (a b c : string) : (a ++ b) ++ c = a ++ (b ++ c).
Proof. induction a; str_simpl; congruence. Qed.

Lemma string_length_app (a b : string) :
  String.length (a ++ b) = (String.length a + String.length b)%nat.
Proof. induction a; str_simpl; congruence. Qed.

Lemma endswith_nil (suf : string) : endswith "" suf = String.eqb "" suf.
Proof. unfold endswith. apply orb_false_r. Qed.

Lemma endswith_cons (c : ascii) (r suf : string) :
  endswith (String c r) suf = String.eqb (String c r) suf || endswith r suf.
Proof. reflexivity. Qed.

Lemma endswith_spec (s suf : string) :
  endswith s suf = true ↔ ∃ p, s = p ++ suf.
Proof.
  induction s as [|c r IH].
  - rewrite endswith_nil, String.eqb_eq. split.
    + intros <-. by exists "".
    + intros [[|] Hp]; [by rewrite app_nil_l in Hp|by rewrite app_cons in Hp].
  - rewrite endswith_cons, orb_true_iff, IH, String.eqb_eq. split.
    + intros [<-|[p ->]]; [by exists ""|by exists (String c p)].
    + intros [[|c' p] Hp].
      * left. by rewrite app_nil_l in Hp.
      * right. exists p. rewrite app_cons in Hp. congruence.
Qed.

Lemma endswith_app_false (a b suf : string) :
  (String.length suf ≤ String.length b)%nat →
  endswith b suf = false → endswith (a ++ b) suf = false.
Proof.
  intros Hlen Hb. induction a as [|c a IH]; [done|].
  rewrite app_cons, endswith_cons, IH, orb_false_r.
  apply string_eqb_false_iff. intros Heq.
  apply (f_equal String.length) in Heq. simpl in Heq.
  rewrite string_length_app in Heq. lia.
Qed.

Lemma contains_slash_cons (c : ascii) (r : string) :
  contains_slash (String c r) = Ascii.eqb c "/"%char || contains_slash r.
Proof. reflexivity. Qed.

Lemma contains_slash_app (a b : string) :
  contains_slash (a ++ b) = contains_slash a || contains_slash b.
Proof.
  induction a as [|c a IH]; [done|].
  rewrite app_cons, !contains_slash_cons, IH. by rewrite orb_assoc.
Qed.

Lemma before_last_slash_app (d n : string) :
  contains_slash n = false → before_last_slash (d ++ String "/" n) = d.
Proof.
  intros Hn. induction d as [|c d IH].
  - rewrite app_nil_l. simpl. by rewrite Hn.
  - rewrite app_cons. simpl.
    rewrite contains_slash_app, contains_slash_cons. simpl.
    rewrite orb_true_r. by rewrite IH.
Qed.

Lemma last_segment_app (d n : string) :
  contains_slash n = false → last_segment (d ++ String "/" n) = n.
Proof.
  intros Hn. induction d as [|c d IH].
  - rewrite app_nil_l. simpl. by rewrite Hn.
  - rewrite app_cons. simpl.
    rewrite contains_slash_app, contains_slash_cons. simpl.
    by rewrite orb_true_r.
Qed.

Lemma parent_app (d n : string) :
  d ≠ "" → contains_slash n = false → parent (d ++ String "/" n) = d.
Proof.
  intros Hd Hn. unfold parent. rewrite before_last_slash_app by done.
  by destruct d.
Qed.

Lemma path_join_abs (a b : string) : is_abs b = true → path_join a b = b.
Proof. unfold path_join. by intros ->. Qed.

Lemma is_abs_app (a b : string) : is_abs a = true → is_abs (a ++ b) = true.
Proof.
  destruct a as [|c a]; [done|]. by rewrite app_cons.
Qed.

Lemma is_abs_path_join (a b : string) :
  is_abs a = true → is_abs (path_join a b) = true.
Proof.
  intros Ha. unfold path_join. destruct (is_abs b) eqn:Hb; [done|].
  destruct (_ || _); [by apply is_abs_app|].
  by apply is_abs_app.
Qed.

(** Joining a directory and a plain name that does not end in a slash. *)
Lemma path_join_plain (a n : string) :
  is_abs n = false →
  ∃ d, path_join a n = d ++ n ∧ (a ≠ "" → d ≠ "").
Proof.
  intros Hn. unfold path_join. rewrite Hn.
  destruct (_ || _).
  - by exists a.
  - exists (a ++ "/"). rewrite string_app_assoc. split; [done|].
    by destruct a.
Qed.

Section Paths.

Variable g : Game.
Hypothesis Habs : is_abs (path g) = true.

Lemma gamedir_abs : is_abs (gamedir g) = true.
Proof. by apply is_abs_path_join. Qed.

Lemma gamedir_shape : ∃ d, gamedir g = d ++ "dosbox_drive_c".
Proof.
  destruct (path_join_plain (path g) "dosbox_drive_c") as (d & Hd & _); eauto.
Qed.

Lemma gamedir_nonempty : gamedir g ≠ "".
Proof. pose proof gamedir_abs as H. by destruct (gamedir g). Qed.

Lemma gamedir_no_trailing_slash : endswith (gamedir g) "/" = false.
Proof.
  destruct gamedir_shape as [d ->]. by apply endswith_app_false; [simpl; lia|].
Qed.

Lemma gamedir_entry (n : string) :
  is_abs n = false → path_join (gamedir g) n = gamedir g ++ String "/" n.
Proof.
  intros Hn. unfold path_join. rewrite Hn, gamedir_no_trailing_slash.
  rewrite orb_false_r.
  by destruct (String.eqb_spec (gamedir g) ""); [destruct gamedir_nonempty|].
Qed.

Lemma batfile_eq : batfile g = gamedir g ++ "/dosbox.bat".
Proof. by apply gamedir_entry. Qed.

Lemma conffile_eq : conffile g = gamedir g ++ "/dosbox.conf".
Proof. by apply gamedir_entry. Qed.

Lemma batfile_abs : is_abs (batfile g) = true.
Proof. apply is_abs_path_join, gamedir_abs. Qed.

Lemma batfile_parent : parent (batfile g) = gamedir g.
Proof.
  rewrite batfile_eq. apply (parent_app _ "dosbox.bat"); [|done].
  apply gamedir_nonempty.
Qed.

Lemma batfile_last : last_segment (batfile g) = "dosbox.bat".
Proof. rewrite batfile_eq. by apply (last_segment_app _ "dosbox.bat"). Qed.

End Paths.

(** ** The monad *)

Section Stable.

Context {R : State → State → Prop} `{!PreOrder R}.

Lemma stable_ret {A} (a : A) : stable R (ret a).
Proof. intros s r s' [= <- <-]. reflexivity. Qed.

Lemma stable_raise {A} (e : exn) : stable R (raise e : M A).
Proof. intros s r s' [= <- <-]. reflexivity. Qed.

Lemma stable_bind {A B} (m : M A) (f : A → M B) :
  stable R m → (∀ a, stable R (f a)) → stable R (bind m f).
Proof.
  intros Hm Hf s r s'. unfold bind.
  destruct (m s) as [[a|e] s1] eqn:E.
  - intros Hk. etrans; [by eapply Hm|by eapply Hf].
  - intros [= <- <-]. by eapply Hm.
Qed.

Lemma stable_for_each {A} (l : list A) (body : A → M unit) :
  (∀ a, stable R (body a)) → stable R (for_each l body).
Proof.
  intros Hb. induction l as [|x l IH]; simpl.
  - apply stable_ret.
  - apply stable_bind; [apply Hb|by intros _].
Qed.

End Stable.

Global Instance same_self_po : PreOrder same_self.
Proof. split; [done|]. intros x y z. unfold same_self. congruence. Qed.
Global Instance same_trace_po : PreOrder same_trace.
Proof. split; [done|]. intros x y z. unfold same_trace. congruence. Qed.
Global Instance same_cwd_po : PreOrder same_cwd.
Proof. split; [done|]. intros x y z. unfold same_cwd. congruence. Qed.
Global Instance same_fs_po : PreOrder same_fs.
Proof. split; [done|]. intros x y z. unfold same_fs. congruence. Qed.

Global Instance quietly_po : PreOrder quietly.
Proof.
  split.
  - intros s. exists []. by rewrite app_nil_r.
  - intros x y z (n1 & H1 & F1) (n2 & H2 & F2). exists (n1 ++ n2)%list.
    split; [by rewrite H2, H1, app_assoc|by apply Forall_app].
Qed.

Lemma same_trace_quietly {A} (m : M A) : stable same_trace m → stable quietly m.
Proof.
  intros Hm s r s' Hrun. exists []. rewrite app_nil_r. split; [|done].
  by eapply Hm.
Qed.

Lemma log_quietly e : no_launch e → stable quietly (log e).
Proof.
  intros He s r s'. unfold log. intros [= <- <-]. exists [e].
  split; [done|]. by constructor.
Qed.

(** Runs one primitive call in hypothesis [H]. *)
Ltac run_prim H :=
  unfold os_path_isdir, os_path_isfile, os_path_isfile_text, os_chdir, open_w,
    open_r, os_remove, os_makedirs, resolved, get_self, get_fs, get_cwd,
    put_self, put_fs, log, raise, ret in H;
  repeat case_match; simplify_eq/=.

(** Proves [stable R m] for a primitive [m] and a relation on fields. *)
Ltac stable_prim :=
  let H := fresh "Hrun" in
  intros ? ? ? H; run_prim H;
  first [ reflexivity | done ].

(** Splits [stable R m] along the binds and branches of [m]. *)
Create HintDb stable_db discriminated.

Ltac stable_step :=
  first
    [ solve [auto 1 with stable_db nocore]
    | apply stable_ret
    | apply stable_raise
    | apply stable_bind; [|intros ?]
    | apply stable_for_each; intros ?
    | match goal with
      | |- stable _ (if ?b then _ else _) => destruct b
      | |- stable _ (match ?x with _ => _ end) => destruct x
      | |- stable _ (let '(_, _) := ?x in _) => destruct x
      end
    | solve [stable_prim]
    | solve [apply same_trace_quietly; stable_prim]
    | solve [by apply log_quietly]
    | eassumption ].

Ltac stable_go := repeat stable_step.

(** ** What each call leaves unchanged *)

Section Facts.

Context `{!Env}.

Lemma config_set_same_trace k v : stable same_trace (config_set k v).
Proof. intros s r s' Hrun. unfold config_set in Hrun. by repeat case_match; simplify_eq. Qed.

Lemma config_set_same_cwd k v : stable same_cwd (config_set k v).
Proof. intros s r s' Hrun. unfold config_set in Hrun. by repeat case_match; simplify_eq. Qed.

Lemma config_set_same_fs k v : stable same_fs (config_set k v).
Proof. intros s r s' Hrun. unfold config_set in Hrun. by repeat case_match; simplify_eq. Qed.

Hint Resolve config_set_same_trace config_set_same_cwd config_set_same_fs
  : stable_db.

Lemma write_metadata_same_trace : stable same_trace write_metadata.
Proof. unfold write_metadata. stable_go. Qed.

Lemma write_metadata_same_cwd : stable same_cwd write_metadata.
Proof. unfold write_metadata. stable_go. Qed.

Hint Resolve write_metadata_same_trace write_metadata_same_cwd : stable_db.

Lemma urlretrieve_quietly u f : stable quietly (urlretrieve u f).
Proof. unfold urlretrieve. stable_go. Qed.

Hint Resolve urlretrieve_quietly : stable_db.

Lemma download_files_quietly : stable quietly download_files.
Proof.
  unfold download_files, download_one, unpack_or_copy, extract_file, shutil_copy.
  stable_go.
Qed.

Lemma download_files_same_self : stable same_self download_files.
Proof.
  unfold download_files, download_one, unpack_or_copy, extract_file,
    shutil_copy, urlretrieve.
  stable_go.
Qed.

Hint Resolve download_files_quietly download_files_same_self : stable_db.

Lemma ensure_payload_quietly : stable quietly ensure_payload.
Proof.
  unfold ensure_payload. stable_go.
Qed.

Lemma ensure_payload_same_self : stable same_self ensure_payload.
Proof. unfold ensure_payload. stable_go. Qed.

Lemma prepare_same_self : stable same_self prepare.
Proof. unfold prepare. stable_go. Qed.

Lemma prepare_same_trace : stable same_trace prepare.
Proof. unfold prepare. stable_go. Qed.

Lemma select_run_same_self a : stable same_self (select_run a).
Proof. unfold select_run. stable_go. Qed.

Lemma select_run_same_trace a : stable same_trace (select_run a).
Proof. unfold select_run. stable_go. Qed.

Lemma select_run_same_cwd a : stable same_cwd (select_run a).
Proof. unfold select_run. stable_go. Qed.

Lemma capture_same_trace : stable same_trace capture.
Proof. unfold capture. stable_go. Qed.

Lemma capture_same_cwd : stable same_cwd capture.
Proof. unfold capture. stable_go. Qed.

Hint Resolve ensure_payload_quietly ensure_payload_same_self prepare_same_self
  prepare_same_trace select_run_same_self select_run_same_trace
  select_run_same_cwd capture_same_trace capture_same_cwd : stable_db.

(** ** The phases of [start] *)

Lemma prepare_ok s args s1 :
  prepare s = (Ok args, s1) →
  args = "-fullscreen" :: conf_args (st_self s)
  ∧ st_cwd s1 = resolve s (gamedir (st_self s))
  ∧ isdir (st_fs s) (resolve s (gamedir (st_self s))) = true.
Proof.
  intros Hrun. unfold prepare, bind, conf_args in *. run_prim Hrun; done.
Qed.

Lemma select_run_ok autorun s a run s1 :
  select_run autorun s = (Ok (a, run), s1) →
  a = autorun && truthy (emulator_start (st_self s)).
Proof.
  intros Hrun. unfold select_run, bind in *.
  run_prim Hrun; by rewrite ?andb_false_r.
Qed.

(** The state in which the emulator has been started. *)
Lemma start_cases autorun s r s' :
  start autorun s = (r, s') →
  (∃ e, r = Raise e ∧
        (ensure_payload s = (Raise e, s')
         ∨ (∃ s1, ensure_payload s = (Ok (), s1) ∧
                  (prepare s1 = (Raise e, s')
                   ∨ ∃ args s2, prepare s1 = (Ok args, s2)
                                ∧ select_run autorun s2 = (Raise e, s')))))
  ∨ ∃ s1 args s2 a run s3,
      ensure_payload s = (Ok (), s1) ∧ prepare s1 = (Ok args, s2)
      ∧ select_run autorun s2 = (Ok (a, run), s3)
      ∧ let args' := (if a then args ++ ["-exit"] else args)%list in
        let run' := if a then run else "." in
        let s4 := emit s3 (EvPopen DOSBOX (run' :: args') (st_cwd s3)) in
        if a then r = Ok () ∧ s' = s4
        else capture
               (emit (set_fs s4 (dosbox_session DOSBOX (run' :: args')
                                   (st_cwd s3) (st_fs s3))) EvWait)
             = (r, s').
Proof.
  unfold start, bind at 1.
  destruct (ensure_payload s) as [[[]|e] s1] eqn:E1; [|intros [= <- <-]; eauto 10].
  unfold bind at 1.
  destruct (prepare s1) as [[args|e] s2] eqn:E2; [|intros [= <- <-]; eauto 10].
  unfold bind at 1.
  destruct (select_run autorun s2) as [[[a run]|e] s3] eqn:E3;
    [|intros [= <- <-]; left; eauto 10].
  intros Hrun. right. exists s1, args, s2, a, run, s3.
  split_and!; [done..|].
  unfold bind, popen, wait, ret in Hrun. simpl in Hrun.
  destruct a; simpl in *; [by simplify_eq|done].
Qed.

(** ** Saving the metadata *)

Lemma set_config_id g : set_config g (config g) = g.
Proof. by destruct g. Qed.

Lemma doc_lookup_section_set c name k v name' k' :
  doc_lookup (section_set c name k v) name' k'
  = if decide (name' = name ∧ k' = k ∧ is_Some (cfg_sections c !! name))
    then Some v else doc_lookup c name' k'.
Proof.
  unfold doc_lookup, section_set. simpl.
  destruct (decide (name' = name)) as [->|Hne].
  - rewrite lookup_alter_eq.
    destruct (cfg_sections c !! name) as [sec|] eqn:Hsec; simpl.
    + destruct (decide (k' = k)) as [->|Hk].
      * rewrite lookup_insert_eq. by rewrite decide_True by eauto.
      * rewrite lookup_insert_ne by done. rewrite decide_False; [done|].
        by intros (_ & ? & _).
    + rewrite decide_False; [done|]. intros (_ & _ & []). done.
  - rewrite lookup_alter_ne by done. rewrite decide_False; [done|].
    by intros (? & _).
Qed.

Lemma section_set_sections c name k v name' :
  is_Some (cfg_sections (section_set c name k v) !! name')
  ↔ is_Some (cfg_sections c !! name').
Proof.
  unfold section_set. simpl. destruct (decide (name = name')) as [->|Hne].
  - rewrite lookup_alter_eq. by rewrite fmap_is_Some.
  - by rewrite lookup_alter_ne.
Qed.

Lemma section_set_defaults c name k v :
  cfg_defaults (section_set c name k v) = cfg_defaults c.
Proof. reflexivity. Qed.

Lemma section_set_other c name k v name' :
  name' ≠ name →
  cfg_sections (section_set c name k v) !! name' = cfg_sections c !! name'.
Proof. intros Hne. unfold section_set. simpl. by rewrite lookup_alter_ne. Qed.

Lemma section_set_missing c name k v :
  cfg_sections c !! name = None → section_set c name k v = c.
Proof.
  intros Hnone. destruct c as [d secs]. unfold section_set. simpl in *.
  f_equal. apply map_eq. intros name'.
  destruct (decide (name = name')) as [<-|Hne].
  - by rewrite lookup_alter_eq, Hnone.
  - by rewrite lookup_alter_ne.
Qed.

Lemma put_saved_sections g c k name :
  is_Some (cfg_sections (put_saved g c k) !! name)
  ↔ is_Some (cfg_sections c !! name).
Proof.
  unfold put_saved. destruct (saved_value g k); [|done].
  apply section_set_sections.
Qed.

Lemma foldl_put_saved_lookup g ks c name k :
  NoDup ks →
  doc_lookup (foldl (put_saved g) c ks) name k
  = if decide (name = "metadata" ∧ k ∈ ks
               ∧ is_Some (cfg_sections c !! "metadata"))
    then match saved_value g k with
         | Some v => Some v
         | None => doc_lookup c name k
         end
    else doc_lookup c name k.
Proof.
  intros Hnd. revert c. induction Hnd as [|k0 ks Hk0 Hnd IH]; intros c; simpl.
  - rewrite decide_False; [done|]. intros (_ & []%elem_of_nil & _).
  - rewrite IH. pose proof (put_saved_sections g c k0 "metadata") as Hiff.
    unfold put_saved in *. destruct (saved_value g k0) as [v0|] eqn:Hv0.
    + rewrite doc_lookup_section_set.
      repeat case_decide; destruct_and?; simplify_eq; try done;
        try (by rewrite Hv0);
        try (exfalso; set_solver).
    + repeat case_decide; destruct_and?; simplify_eq; try done;
        try (exfalso; set_solver).
      assert (k = k0) as -> by set_solver. by rewrite Hv0.
Qed.

Lemma owned_keys_nodup : NoDup owned_keys.
Proof. unfold owned_keys. repeat constructor; set_solver. Qed.

Lemma saved_value_owned g k v : saved_value g k = Some v → k ∈ owned_keys.
Proof.
  intros Hv. unfold saved_value in Hv.
  repeat match type of Hv with
         | context [String.eqb k ?x] =>
             destruct (String.eqb_spec k x) as [->|?];
             [unfold owned_keys; set_solver|]
         end.
  done.
Qed.

(** The document after a save, option by option. *)
Lemma saved_config_lookup g name k :
  doc_lookup (saved_config g) name k
  = if decide (name = "metadata" ∧ is_Some (cfg_sections (config g) !! "metadata"))
    then match saved_value g k with
         | Some v => Some v
         | None => doc_lookup (config g) name k
         end
    else doc_lookup (config g) name k.
Proof.
  unfold saved_config. rewrite foldl_put_saved_lookup by apply owned_keys_nodup.
  destruct (decide (name = "metadata" ∧ k ∈ owned_keys ∧ _)) as [(-> & Hin & Hs)|Hn].
  - by rewrite decide_True.
  - destruct (decide (name = "metadata" ∧ _)) as [[-> Hs]|]; [|done].
    destruct (saved_value g k) as [v|] eqn:Hv; [|done].
    apply saved_value_owned in Hv. naive_solver.
Qed.

Lemma saved_config_defaults g : cfg_defaults (saved_config g) = cfg_defaults (config g).
Proof.
  unfold saved_config. generalize (config g). induction owned_keys as [|k ks IH]; intros c; simpl; [done|].
  rewrite IH. unfold put_saved. by destruct (saved_value g k).
Qed.

Lemma saved_config_other g name :
  name ≠ "metadata" →
  cfg_sections (saved_config g) !! name = cfg_sections (config g) !! name.
Proof.
  intros Hne. unfold saved_config. generalize (config g).
  induction owned_keys as [|k ks IH]; intros c; simpl; [done|].
  rewrite IH. unfold put_saved. destruct (saved_value g k); [|done].
  by apply section_set_other.
Qed.

Lemma saved_config_sections g name :
  is_Some (cfg_sections (saved_config g) !! name)
  ↔ is_Some (cfg_sections (config g) !! name).
Proof.
  unfold saved_config. generalize (config g).
  induction owned_keys as [|k ks IH]; intros c; simpl; [done|].
  by rewrite IH, put_saved_sections.
Qed.

Lemma saved_config_missing g :
  cfg_sections (config g) !! "metadata" = None → saved_config g = config g.
Proof.
  unfold saved_config. generalize (config g).
  induction owned_keys as [|k ks IH]; intros c Hc; simpl; [done|].
  unfold put_saved at 2. destruct (saved_value g k).
  - rewrite section_set_missing by done. by apply IH.
  - by apply IH.
Qed.

Lemma config_set_run k v s :
  is_Some (cfg_sections (config (st_self s)) !! "metadata") →
  config_set k v s
  = (Ok (), set_self s (set_config (st_self s)
                          (section_set (config (st_self s)) "metadata" k v))).
Proof. intros [sec Hsec]. unfold config_set. by rewrite Hsec. Qed.

Lemma save_step_run (b : bool) k v s :
  is_Some (cfg_sections (config (st_self s)) !! "metadata") →
  (if b then config_set k v else ret ()) s
  = (Ok (), set_self s (set_config (st_self s)
                          (if b then section_set (config (st_self s)) "metadata" k v
                           else config (st_self s)))).
Proof.
  intros Hs. destruct b; [by apply config_set_run|].
  unfold ret. rewrite set_config_id. by destruct s.
Qed.

Lemma write_metadata_run s :
  let g := st_self s in
  is_Some (cfg_sections (config g) !! "metadata") →
  write_metadata s
  = open_w (inifile g) (ini_write (saved_config g))
      (set_self s (set_config g (saved_config g))).
Proof.
  intros g Hs. subst g. unfold write_metadata, bind, get_self.
  do 5 (rewrite save_step_run
          by (simpl; repeat case_match; rewrite ?section_set_sections; done);
        simpl).
  unfold saved_config, owned_keys, put_saved, saved_value. simpl.
  by destruct (truthy (title _)), (truthy (year _)), (url_truthy _),
    (truthy (emulator_start _)), (truthy (dosbox_conf _)).
Qed.

Lemma write_metadata_missing s :
  let g := st_self s in
  cfg_sections (config g) !! "metadata" = None →
  write_metadata s
  = if existsb (λ k, bool_decide (is_Some (saved_value g k))) owned_keys
    then (Raise KeyError, s)
    else open_w (inifile g) (ini_write (config g)) s.
Proof.
  intros g Hs. subst g. unfold write_metadata, bind, get_self, config_set, ret.
  unfold owned_keys, saved_value.
  destruct (truthy (title _)), (truthy (year _)), (url_truthy _),
    (truthy (emulator_start _)), (truthy (dosbox_conf _));
    rewrite ?Hs; reflexivity.
Qed.

(** Whatever the outcome, the record after a save is the record before with
    the document gone through the fields that are set. *)
Lemma write_metadata_self s r s' :
  write_metadata s = (r, s') →
  st_self s' = set_config (st_self s) (saved_config (st_self s)).
Proof.
  destruct (cfg_sections (config (st_self s)) !! "metadata") as [sec|] eqn:Hs.
  - rewrite write_metadata_run by eauto. intros Hrun. run_prim Hrun; done.
  - rewrite write_metadata_missing, saved_config_missing, set_config_id by done.
    intros Hrun. run_prim Hrun; done.
Qed.

(** A save touches one file at most, and touches it when it returns. *)
Lemma write_metadata_fs s r s' :
  write_metadata s = (r, s') →
  let ini := resolve s (inifile (st_self s)) in
  (r = Ok () →
   st_fs s' = <[ini := File (ini_write (config (st_self s')))]> (st_fs s))
  ∧ (∀ e, r = Raise e → st_fs s' = st_fs s).
Proof.
  intros Hrun. pose proof (write_metadata_self _ _ _ Hrun) as Hself.
  revert Hrun.
  destruct (cfg_sections (config (st_self s)) !! "metadata") as [sec|] eqn:Hs.
  - rewrite write_metadata_run by eauto. intros Hrun.
    run_prim Hrun; split; done.
  - rewrite write_metadata_missing by done. rewrite saved_config_missing in Hself by done.
    intros Hrun. run_prim Hrun; split; done.
Qed.

(** ** Launching *)

Lemma start_launch autorun s r s' :
  start autorun s = (r, s') →
  let g := st_self s in
  let a := autorun && truthy (emulator_start g) in
  ∃ quiet, Forall no_launch quiet ∧
    ((∃ e, r = Raise e ∧ st_trace s' = (st_trace s ++ quiet)%list)
     ∨ ∃ s1 run,
         ensure_payload s = (Ok (), s1)
         ∧ isdir (st_fs s1) (resolve s1 (gamedir g)) = true
         ∧ st_trace s'
           = (st_trace s ++ quiet
              ++ [EvPopen DOSBOX
                    (run :: "-fullscreen" :: conf_args g
                         ++ (if a then ["-exit"] else []))
                    (resolve s1 (gamedir g))]
              ++ (if a then [] else [EvWait]))%list
         ∧ (a = false → run = ".")).
Proof.
  intros Hrun g a.
  apply start_cases in Hrun as [(e & -> & Hrun)|Hrun].
  - destruct Hrun as [Hrun|(s1 & H1 & Hrun)].
    { apply ensure_payload_quietly in Hrun as (quiet & Ht & Hq). eauto 10. }
    apply ensure_payload_quietly in H1 as (quiet & Ht & Hq).
    exists quiet. split; [done|]. left. exists e. split; [done|].
    destruct Hrun as [Hrun|(args & s2 & H2 & Hrun)].
    + apply prepare_same_trace in Hrun. congruence.
    + apply prepare_same_trace in H2. apply select_run_same_trace in Hrun.
      congruence.
  - destruct Hrun as (s1 & args & s2 & a' & run & s3 & H1 & H2 & H3 & Hrun).
    pose proof (ensure_payload_same_self _ _ _ H1) as Hg1.
    pose proof (prepare_same_self _ _ _ H2) as Hg2.
    pose proof (select_run_same_cwd _ _ _ _ H3) as Hc3.
    pose proof (select_run_same_trace _ _ _ _ H3) as Ht3.
    pose proof (prepare_same_trace _ _ _ H2) as Ht2.
    apply select_run_ok in H3. apply prepare_ok in H2 as (-> & Hc2 & Hd).
    pose proof H1 as (quiet & Ht1 & Hq)%ensure_payload_quietly.
    unfold same_self, same_cwd, same_trace in *.
    rewrite Hg2, Hg1 in H3. rewrite Hg1 in Hd, Hc2, Hrun.
    fold g in H3, Hd, Hc2, Hrun. fold a in H3. subst a'.
    exists quiet. split; [done|]. right.
    exists s1, (if a then run else "."). split_and!; [done|done| |by intros ->].
    destruct a.
    + destruct Hrun as [-> ->]. simpl. rewrite Hc3, Hc2, Ht3, Ht2, Ht1.
      by rewrite <- !app_assoc.
    + apply capture_same_trace in Hrun. unfold same_trace in Hrun.
      rewrite Hrun. simpl. rewrite Hc3, Hc2, Ht3, Ht2, Ht1, app_nil_r.
      by rewrite <- !app_assoc.
Qed.

Lemma no_launch_not_popen quiet prog args cwd :
  Forall no_launch quiet → EvPopen prog args cwd ∉ quiet.
Proof.
  intros Hq Hin. rewrite Forall_forall in Hq. by apply Hq in Hin.
Qed.

(** C5. Payload acquisition is idempotent: when the payload directory of the
    title exists, [ensure_payload] returns normally and leaves the whole
    machine state as it was: no file is changed, nothing is fetched. *)
Theorem ensure_payload_existing (s : State) :
  isdir (st_fs s) (resolve s (gamedir (st_self s))) = true →
  ensure_payload s = (Ok (), s).
Proof.
  intros Hd. unfold ensure_payload, bind, get_self, os_path_isdir, ret.
  by rewrite Hd.
Qed.

(** C4. For a title whose boot command is unset, [start] with
    [autorun=True] is [start] with [autorun=False]: same outcome, same final
    state; and no process it starts has [-exit] among its arguments. *)
Theorem autorun_forced_off (s : State) :
  truthy (emulator_start (st_self s)) = false →
  start true s = start false s
  ∧ ∀ r s', start true s = (r, s') →
      ∃ new, st_trace s' = (st_trace s ++ new)%list
             ∧ ∀ prog args cwd, EvPopen prog args cwd ∈ new → "-exit" ∉ args.
Proof.
  intros Hes. split.
  - unfold start. unfold bind at 1 6.
    destruct (ensure_payload s) as [[[]|e] s1] eqn:E1; [|done].
    unfold bind at 1 5.
    destruct (prepare s1) as [[args|e] s2] eqn:E2; [|done].
    apply ensure_payload_same_self in E1. apply prepare_same_self in E2.
    unfold same_self in *.
    assert (select_run true s2 = select_run false s2) as Hsel.
    { unfold select_run, bind, get_self. by rewrite E2, E1, Hes. }
    unfold bind at 1 4. by rewrite Hsel.
  - intros r s' Hrun. apply start_launch in Hrun as (quiet & Hq & Hrun).
    rewrite Hes, andb_false_r in Hrun.
    destruct Hrun as [(e & -> & Ht)|(s1 & run & _ & _ & Ht & Hr)].
    + exists quiet. split; [done|]. intros prog args cwd Hin.
      by apply no_launch_not_popen in Hin.
    + eexists. split; [exact Ht|]. intros prog args cwd Hin.
      rewrite Hr in Hin by done.
      apply elem_of_app in Hin as [Hin|Hin]; [by apply no_launch_not_popen in Hin|].
      apply elem_of_cons in Hin as [[= -> -> ->]|Hin].
      * unfold conf_args. destruct (truthy (dosbox_conf _)); simpl; intros Hin;
          repeat (apply elem_of_cons in Hin as [?|Hin]; [done|]);
          by apply elem_of_nil in Hin.
      * apply list_elem_of_singleton in Hin. done.
Qed.


(** C10. A title loaded from a metadata document without a [url] option has
    [url = None]; when its payload directory is missing (and its storage
    directory is there), [start] raises [TypeError] from the loop over
    [self.url]: the only effect is the change of directory, no directory is
    created and nothing is fetched. *)
Theorem start_without_url (fs0 : gmap string node) (cwd0 p : string)
    (g : Game) (autorun : bool) (s : State) :
  Game_init fs0 cwd0 p = Ok g →
  metadata_get (config g) "url" = None →
  st_self s = g →
  isdir (st_fs s) (resolve s (path g)) = true →
  isdir (st_fs s) (resolve s (gamedir g)) = false →
  url g = UNone
  ∧ start autorun s = (Raise TypeError, set_cwd s (resolve s (path g))).
Proof.
  intros Hinit Hget Hself Hp Hd.
  assert (url g = UNone) as Hurl.
  { unfold Game_init in Hinit. destruct (config_read _ _) as [c|e]; [|done].
    destruct (cfg_sections c !! "metadata") as [sec|] eqn:Hsec; [|done].
    injection Hinit as <-. simpl in *. unfold metadata_get in Hget.
    rewrite Hsec in Hget. simpl in Hget. by rewrite Hget. }
  split; [done|].
  unfold start, bind at 1. unfold ensure_payload, bind, get_self, os_path_isdir.
  rewrite Hself, Hd. simpl.
  unfold download_files, bind, get_self, os_chdir. rewrite Hself, Hp, Hurl.
  reflexivity.
Qed.

(** ** Splitting and joining URLs *)

Lemma py_split_run (u rest : string) :
  u ≠ "" →
  forallb (λ c, negb (py_isspace c)) (list_ascii_of_string u) = true →
  match rest with String c _ => py_isspace c = true | EmptyString => True end →
  py_split (u ++ rest) = u :: py_split rest.
Proof.
  intros Hne Hu Hrest. induction u as [|c u IH]; [done|].
  simpl in Hu. apply andb_true_iff in Hu as [Hc Hu].
  apply negb_true_iff in Hc. rewrite app_cons. simpl. rewrite Hc.
  destruct u as [|c1 u].
  - rewrite app_nil_l. destruct rest as [|c' r]; [done|]. by rewrite Hrest.
  - rewrite app_cons. rewrite app_cons in IH.
    pose proof Hu as Hu'. simpl in Hu'. apply andb_true_iff in Hu' as [Hc1 _].
    apply negb_true_iff in Hc1. rewrite Hc1.
    by rewrite IH.
Qed.

Lemma py_split_join (l : list string) :
  Forall (λ u, url_token u = true) l → py_split (py_join_nl l) = l.
Proof.
  induction 1 as [|u l Hu Hl IH]; [done|].
  unfold url_token in Hu. apply andb_true_iff in Hu as [Hne Hu].
  apply negb_true_iff, string_eqb_false_iff in Hne.
  unfold py_join_nl in *. simpl. destruct l as [|u' l].
  - rewrite <- (string_app_nil_r u) at 1. by rewrite py_split_run.
  - rewrite py_split_run; [|done..].
    f_equal. etrans; [|exact IH]. reflexivity.
Qed.

Lemma py_join_nonempty (u : string) (l : list string) :
  u ≠ "" → py_join_nl (u :: l) ≠ "".
Proof.
  intros Hu. unfold py_join_nl. simpl. destruct l; [done|].
  destruct u; [done|]. by rewrite app_cons.
Qed.

(** ** C8: what a save changes in the document *)

Lemma truthy_some (o : option string) :
  truthy o = true → o = Some (str_of o).
Proof. by destruct o. Qed.

(** C8. Save frame condition.  Across [write_metadata], whatever its
    outcome: an option that is not one of the five names of the model, or
    lives in another section, keeps its value or its absence; so does the
    option of each field that is unset (None or empty); the [DEFAULT]
    section and the set of sections are unchanged.  When the [metadata]
    section is there, each field that is set is stored under its name
    (the URLs joined by newlines), and a save that returns has written the
    resulting document to [metadata.ini]. *)
Theorem save_frame (s : State) (r : outcome ()) (s' : State) :
  write_metadata s = (r, s') →
  let g := st_self s in
  let c := config g in
  let c' := config (st_self s') in
  (∀ name k, name ≠ "metadata" ∨ k ∉ owned_keys →
             doc_lookup c' name k = doc_lookup c name k)
  ∧ (truthy (title g) = false →
     doc_lookup c' "metadata" "title" = doc_lookup c "metadata" "title")
  ∧ (truthy (year g) = false →
     doc_lookup c' "metadata" "year" = doc_lookup c "metadata" "year")
  ∧ (url_truthy (url g) = false →
     doc_lookup c' "metadata" "url" = doc_lookup c "metadata" "url")
  ∧ (truthy (emulator_start g) = false →
     doc_lookup c' "metadata" "emulator_start"
     = doc_lookup c "metadata" "emulator_start")
  ∧ (truthy (dosbox_conf g) = false →
     doc_lookup c' "metadata" "dosbox_conf"
     = doc_lookup c "metadata" "dosbox_conf")
  ∧ cfg_defaults c' = cfg_defaults c
  ∧ (∀ name, is_Some (cfg_sections c' !! name) ↔ is_Some (cfg_sections c !! name))
  ∧ (is_Some (cfg_sections c !! "metadata") →
     (truthy (title g) = true →
      doc_lookup c' "metadata" "title" = Some (str_of (title g)))
     ∧ (truthy (year g) = true →
        doc_lookup c' "metadata" "year" = Some (str_of (year g)))
     ∧ (url_truthy (url g) = true →
        doc_lookup c' "metadata" "url"
        = Some (py_join_nl (default [] (url_items (url g)))))
     ∧ (truthy (emulator_start g) = true →
        doc_lookup c' "metadata" "emulator_start"
        = Some (str_of (emulator_start g)))
     ∧ (truthy (dosbox_conf g) = true →
        doc_lookup c' "metadata" "dosbox_conf"
        = Some (str_of (dosbox_conf g))))
  ∧ (r = Ok () →
     st_fs s' = <[resolve s (inifile g) := File (ini_write c')]> (st_fs s)).
Proof.
  intros Hrun g c c'.
  pose proof (write_metadata_self _ _ _ Hrun) as Hself.
  pose proof (write_metadata_fs _ _ _ Hrun) as [Hfs _].
  assert (c' = saved_config g) as -> by (subst c'; by rewrite Hself).
  assert (∀ k, saved_value g k = None →
               doc_lookup (saved_config g) "metadata" k = doc_lookup c "metadata" k)
    as Hunset.
  { intros k Hk. rewrite saved_config_lookup, Hk. by case_decide. }
  assert (∀ k v, is_Some (cfg_sections c !! "metadata") → saved_value g k = Some v →
                 doc_lookup (saved_config g) "metadata" k = Some v)
    as Hset.
  { intros k v Hs Hk. rewrite saved_config_lookup, Hk. by rewrite decide_True. }
  split_and!.
  - intros name k [Hname|Hk].
    + rewrite saved_config_lookup. rewrite decide_False; [done|]. by intros [? _].
    + destruct (decide (name = "metadata")) as [->|Hname].
      * apply Hunset. destruct (saved_value g k) eqn:Hv; [|done].
        by apply saved_value_owned in Hv.
      * rewrite saved_config_lookup. rewrite decide_False; [done|]. by intros [? _].
  - intros Hf. apply Hunset. unfold saved_value. simpl. by rewrite Hf.
  - intros Hf. apply Hunset. unfold saved_value. simpl. by rewrite Hf.
  - intros Hf. apply Hunset. unfold saved_value. simpl. by rewrite Hf.
  - intros Hf. apply Hunset. unfold saved_value. simpl. by rewrite Hf.
  - intros Hf. apply Hunset. unfold saved_value. simpl. by rewrite Hf.
  - apply saved_config_defaults.
  - apply saved_config_sections.
  - intros Hs. split_and!; intros Hf; apply Hset; try done;
      unfold saved_value; simpl; by rewrite Hf.
  - intros ->. rewrite Hfs by done. by rewrite Hself.
Qed.

(** ** C2: saving and loading again *)

Lemma metadata_get_saved g k :
  is_Some (cfg_sections (config g) !! "metadata") →
  metadata_get (saved_config g) k
  = match saved_value g k with
    | Some v => Some v
    | None => metadata_get (config g) k
    end.
Proof.
  intros Hs. pose proof (saved_config_lookup g "metadata" k) as Hl.
  rewrite decide_True in Hl by done.
  pose proof (saved_config_defaults g) as Hd.
  pose proof (proj2 (saved_config_sections g "metadata") Hs) as [sec' Hsec'].
  destruct Hs as [sec Hsec].
  unfold metadata_get, doc_lookup, proxy_get in *.
  rewrite Hsec' in *. rewrite Hsec in *. simpl in *. rewrite Hl, Hd.
  destruct (saved_value g k); [done|]. done.
Qed.

Lemma Game_init_fields fs cwd p c :
  config_read fs (path_join cwd (path_join p "metadata.ini")) = Ok c →
  is_Some (cfg_sections c !! "metadata") →
  Game_init fs cwd p
  = Ok (mkGame p c (metadata_get c "title") (metadata_get c "year")
          (metadata_get c "emulator_start") (metadata_get c "dosbox_conf")
          (loaded_url (metadata_get c "url"))).
Proof.
  intros Hc [sec Hsec]. unfold Game_init, metadata_get.
  by rewrite Hc, Hsec.
Qed.

(** C2 (amended). Round trip through a save.  For a title whose document
    has its [metadata] section, after a [write_metadata] that returns, and
    provided the INI text written parses back to the document it was written
    from, loading the same storage location gives a record in which: each of
    title, year, boot command and emulator configuration that was set is
    equal to the saved one; the URLs are equal, in order, when they were a
    non-empty list of non-empty, whitespace-free URLs; and each field that
    was unset holds what the document already had under its name. *)
Theorem save_then_reload (s s' : State) :
  let g := st_self s in
  is_Some (cfg_sections (config g) !! "metadata") →
  write_metadata s = (Ok (), s') →
  ini_parse (ini_write (config (st_self s'))) = Some (config (st_self s')) →
  ∃ g', Game_init (st_fs s') (st_cwd s') (path g) = Ok g'
    ∧ (truthy (title g) = true → title g' = title g)
    ∧ (truthy (year g) = true → year g' = year g)
    ∧ (truthy (emulator_start g) = true → emulator_start g' = emulator_start g)
    ∧ (truthy (dosbox_conf g) = true → dosbox_conf g' = dosbox_conf g)
    ∧ (∀ l, url g = UList l → l ≠ [] → Forall (λ u, url_token u = true) l →
            url g' = url g)
    ∧ (truthy (title g) = false → title g' = metadata_get (config g) "title")
    ∧ (truthy (year g) = false → year g' = metadata_get (config g) "year")
    ∧ (truthy (emulator_start g) = false →
       emulator_start g' = metadata_get (config g) "emulator_start")
    ∧ (truthy (dosbox_conf g) = false →
       dosbox_conf g' = metadata_get (config g) "dosbox_conf")
    ∧ (url_truthy (url g) = false →
       url g' = loaded_url (metadata_get (config g) "url")).
Proof.
  intros g Hs Hrun Hcodec.
  pose proof (write_metadata_self _ _ _ Hrun) as Hself.
  pose proof (write_metadata_fs _ _ _ Hrun) as [Hfs _].
  pose proof (write_metadata_same_cwd _ _ _ Hrun) as Hcwd.
  unfold same_cwd in Hcwd. specialize (Hfs eq_refl). fold g in Hself, Hfs.
  assert (config (st_self s') = saved_config g) as Hc by by rewrite Hself.
  rewrite Hc in *.
  eexists. split.
  { apply Game_init_fields; [|by apply saved_config_sections].
    unfold config_read. rewrite Hfs, Hcwd.
    unfold resolve, inifile. rewrite lookup_insert_eq. by rewrite Hcodec. }
  simpl. rewrite !metadata_get_saved by done.
  unfold saved_value. simpl.
  split_and!; try (by intros ->).
  1-4: intros Hf; rewrite Hf; symmetry; by apply truthy_some.
  intros l Hl Hne Htok. rewrite Hl. simpl.
  destruct l as [|u l]; [done|]. simpl.
  assert (py_join_nl (u :: l) ≠ "") as Hj.
  { apply py_join_nonempty. apply Forall_cons in Htok as [Hu _].
    unfold url_token in Hu. apply andb_true_iff in Hu as [Hu _].
    by apply negb_true_iff, string_eqb_false_iff in Hu. }
  apply string_eqb_false_iff in Hj. rewrite Hj. simpl.
  by rewrite py_split_join.
Qed.

(** ** The command script *)

Lemma conffile_neq_gamedir g : is_abs (path g) = true → conffile g ≠ gamedir g.
Proof.
  intros Habs. rewrite conffile_eq by done. intros Heq.
  rewrite <- (string_app_nil_r (gamedir g)) in Heq at 2.
  by apply String.app_inj in Heq.
Qed.

(** After [prepare] the machine is in the payload directory, which exists. *)
Lemma prepare_in_gamedir s args s1 :
  is_abs (path (st_self s)) = true →
  prepare s = (Ok args, s1) →
  st_cwd s1 = gamedir (st_self s)
  ∧ isdir (st_fs s1) (gamedir (st_self s)) = true
  ∧ st_self s1 = st_self s ∧ st_trace s1 = st_trace s.
Proof.
  intros Habs Hrun.
  pose proof (gamedir_abs _ Habs) as Hg. pose proof (conffile_neq_gamedir _ Habs) as Hne.
  assert (is_abs (conffile (st_self s)) = true) as Hc
    by (apply is_abs_path_join, Hg).
  unfold prepare, bind in Hrun. run_prim Hrun.
  - unfold resolve in *. simpl in *. rewrite !path_join_abs in * by done.
    split_and!; try done. unfold isdir. by rewrite lookup_insert_ne.
  - unfold resolve in *. by rewrite !path_join_abs in * by done.
Qed.

Lemma open_w_batfile g s content :
  is_abs (path g) = true →
  st_cwd s = gamedir g →
  isdir (st_fs s) (gamedir g) = true →
  isdir (st_fs s) (batfile g) = false →
  open_w (batfile g) content s
  = (Ok (), set_fs s (<[batfile g := File content]> (st_fs s))).
Proof.
  intros Habs Hcwd Hd Hb. unfold open_w, resolve.
  rewrite (path_join_abs _ (batfile g)) by by apply batfile_abs.
  by rewrite batfile_last, batfile_parent, Hb, Hd.
Qed.

Lemma start_prepared autorun s s1 args s2 :
  ensure_payload s = (Ok (), s1) →
  prepare s1 = (Ok args, s2) →
  start autorun s
  = match select_run autorun s2 with
    | (Ok (a, run), s3) =>
        let args' := (if a then args ++ ["-exit"] else args)%list in
        let run' := if a then run else "." in
        let s4 := emit s3 (EvPopen DOSBOX (run' :: args') (st_cwd s3)) in
        if a then (Ok (), s4)
        else capture
               (emit (set_fs s4 (dosbox_session DOSBOX (run' :: args')
                                   (st_cwd s3) (st_fs s3))) EvWait)
    | (Raise e, s3) => (Raise e, s3)
    end.
Proof.
  intros E1 E2. unfold start, bind at 1. rewrite E1. unfold bind at 1.
  rewrite E2. unfold bind at 1.
  destruct (select_run autorun s2) as [[[a run]|e] s3]; [|done].
  unfold bind, popen, wait, ret. by destruct a.
Qed.

Lemma split_slash_name (p : string) :
  contains_slash p = false → split_slash p = [p].
Proof.
  induction p as [|c p IH]; [done|].
  unfold contains_slash. simpl. intros [Hc Hp]%orb_false_iff.
  rewrite Hc. by rewrite IH.
Qed.

Lemma is_abs_name (p : string) : contains_slash p = false → is_abs p = false.
Proof.
  destruct p as [|c p]; [done|]. unfold contains_slash. simpl.
  by intros [Hc _]%orb_false_iff.
Qed.

(** A boot command that is a bare name, the usual case, is looked up like
    the paths the program builds: as the entry of that name in the current
    directory. *)
Lemma isfile_from_name (fs : gmap string node) (cwd p : string) :
  contains_slash p = false →
  p ≠ "" → p ≠ "." → p ≠ ".." →
  isfile_from fs cwd p = isfile fs (path_join cwd p).
Proof.
  intros Hs H0 H1 H2. unfold isfile_from.
  rewrite split_slash_name, is_abs_name by done.
  apply String.eqb_neq in H0, H1, H2. by rewrite H0; simpl; rewrite H0, H1, H2.
Qed.

Lemma select_run_shortcut s :
  truthy (emulator_start (st_self s)) = true →
  isfile_from (st_fs s) (st_cwd s) (str_of (emulator_start (st_self s))) = true →
  select_run true s = (Ok (true, str_of (emulator_start (st_self s))), s).
Proof.
  intros Hes Hf. unfold select_run, bind, get_self, os_path_isfile_text, ret.
  by rewrite Hes, Hf.
Qed.

Section Script.

Variables (g : Game) (s : State).
Hypothesis Habs : is_abs (path g) = true.
Hypothesis Hself : st_self s = g.
Hypothesis Hcwd : st_cwd s = gamedir g.
Hypothesis Hdir : isdir (st_fs s) (gamedir g) = true.

Lemma select_run_script :
  truthy (emulator_start g) = true →
  isfile_from (st_fs s) (st_cwd s) (str_of (emulator_start g)) = false →
  isdir (st_fs s) (batfile g) = false →
  select_run true s
  = (Ok (true, "dosbox.bat"),
     set_fs s (<[batfile g :=
                   File ("@echo off" ++ nl ++ "cls" ++ nl
                         ++ str_of (emulator_start g))]> (st_fs s))).
Proof.
  intros Hes Hf Hb.
  unfold select_run, bind, get_self, os_path_isfile_text, ret.
  rewrite Hself, Hes, Hf. by rewrite (open_w_batfile g).
Qed.

Lemma select_run_interactive :
  truthy (emulator_start g) = true →
  isdir (st_fs s) (batfile g) = false →
  select_run false s
  = (Ok (false, "."),
     set_fs s (<[batfile g := File (str_of (emulator_start g))]> (st_fs s))).
Proof.
  intros Hes Hb. unfold select_run, bind, get_self, ret.
  rewrite Hself, Hes. by rewrite (open_w_batfile g).
Qed.

Lemma select_run_placeholder autorun :
  truthy (emulator_start g) = false →
  isfile (st_fs s) (batfile g) = false →
  isdir (st_fs s) (batfile g) = false →
  select_run autorun s
  = (Ok (false, "."), set_fs s (<[batfile g := File nl]> (st_fs s))).
Proof.
  intros Hes Hf Hb. unfold select_run, bind, get_self, os_path_isfile, resolve, ret.
  rewrite Hself, Hes, Hcwd.
  rewrite (path_join_abs _ (batfile g)) by by apply batfile_abs.
  rewrite Hf. simpl. by rewrite (open_w_batfile g).
Qed.

End Script.

(** C7 (amended). Autorun with a boot command, from the state [s2]
    reached once the payload is ensured and the configuration written.
    Line 74 asks one thing of the boot command: whether, followed as a path
    from the current directory (the payload directory), it leads to a
    regular file.  When it does, the boot command as written is the run
    target and the file system is left as it was: no command script is
    written, whether or not the file can be executed and wherever it
    lies.  When it does not, and the storage location is an absolute path
    whose [dosbox.bat] is not a directory, [dosbox.bat] is written in the
    payload directory with the preamble [@echo off], [cls] followed by the
    boot command, and is the run target. *)
Theorem autorun_run_target (s s1 s2 : State) (args : list string) :
  let g := st_self s in
  let boot := str_of (emulator_start g) in
  truthy (emulator_start g) = true →
  ensure_payload s = (Ok (), s1) →
  prepare s1 = (Ok args, s2) →
  (isfile_from (st_fs s2) (st_cwd s2) boot = true →
   start true s
   = (Ok (), emit s2 (EvPopen DOSBOX (boot :: args ++ ["-exit"])%list (st_cwd s2))))
  ∧ (isfile_from (st_fs s2) (st_cwd s2) boot = false →
     is_abs (path g) = true →
     isdir (st_fs s2) (batfile g) = false →
     st_cwd s2 = gamedir g
     ∧ start true s
       = (Ok (),
          emit (set_fs s2 (<[batfile g :=
                               File ("@echo off" ++ nl ++ "cls" ++ nl ++ boot)]>
                             (st_fs s2)))
               (EvPopen DOSBOX ("dosbox.bat" :: args ++ ["-exit"])%list
                        (gamedir g)))).
Proof.
  intros g boot Hes E1 E2.
  assert (st_self s1 = g) as Hg1 by by apply ensure_payload_same_self in E1.
  assert (st_self s2 = g) as Hg2
    by (apply prepare_same_self in E2; unfold same_self in E2; congruence).
  rewrite (start_prepared _ _ _ _ _ E1 E2). split.
  - intros Hf. rewrite select_run_shortcut by by rewrite Hg2.
    by rewrite Hg2.
  - intros Hf Habs Hb.
    assert (is_abs (path (st_self s1)) = true) as Habs1 by by rewrite Hg1.
    destruct (prepare_in_gamedir _ _ _ Habs1 E2) as (Hcwd & Hd & _ & _).
    rewrite Hg1 in Hcwd, Hd. split; [done|].
    rewrite (select_run_script g) by done. simpl. by rewrite Hcwd.
Qed.

(** ** Reading the script back *)

Lemma capture_absent s :
  isfile (st_fs s) (resolve s (batfile (st_self s))) = false →
  capture s = (Ok (), s).
Proof.
  intros Hf. unfold capture, bind, get_self, os_path_isfile, ret.
  by rewrite Hf.
Qed.

Lemma capture_empty s :
  st_fs s !! resolve s (batfile (st_self s)) = Some (File "") →
  capture s = (Ok (), set_self s (set_emulator_start (st_self s) (Some ""))).
Proof.
  intros Hf. unfold capture, bind, get_self, os_path_isfile, open_r, put_self, ret.
  unfold isfile. rewrite Hf. cbv beta iota. by rewrite Hf.
Qed.

Lemma capture_text s text :
  st_fs s !! resolve s (batfile (st_self s)) = Some (File text) →
  text ≠ "" →
  capture s
  = write_metadata (set_self s (set_emulator_start (st_self s) (Some text))).
Proof.
  intros Hf Hne.
  unfold capture, bind, get_self, os_path_isfile, open_r, put_self, ret.
  unfold isfile. rewrite Hf. cbv beta iota. rewrite Hf. cbv beta iota.
  unfold truthy. apply string_eqb_false_iff in Hne. rewrite Hne. simpl.
  by destruct (write_metadata _) as [[[]|] ?].
Qed.

(** C9. The placeholder script.  For a title without boot command whose
    payload directory has no [dosbox.bat], [start] writes a script holding
    one newline character (not the empty text).  When the session leaves
    that script as it is, the newline is read back as the boot command of
    the record, stored under [emulator_start] in the document (its
    [metadata] section being there), and a call that returns has written
    that document to [metadata.ini]: what [start] does from the launch on
    is one session and a [write_metadata] of the record with the newline as
    boot command.  Storage locations are absolute paths. *)
Theorem placeholder_script_adopted (autorun : bool) (s s1 s2 : State)
    (args : list string) :
  let g := st_self s in
  let fs3 := <[batfile g := File nl]> (st_fs s2) in
  let fs4 := dosbox_session DOSBOX ("." :: args) (gamedir g) fs3 in
  let launched :=
    mkState (set_emulator_start g (Some nl)) fs4 (gamedir g)
      (st_trace s2 ++ [EvPopen DOSBOX ("." :: args) (gamedir g); EvWait]) in
  is_abs (path g) = true →
  truthy (emulator_start g) = false →
  ensure_payload s = (Ok (), s1) →
  prepare s1 = (Ok args, s2) →
  isfile (st_fs s2) (batfile g) = false →
  isdir (st_fs s2) (batfile g) = false →
  fs4 !! batfile g = Some (File nl) →
  nl ≠ "" ∧ String.length nl = 1
  ∧ start autorun s = write_metadata launched
  ∧ ∀ r s', start autorun s = (r, s') →
      emulator_start (st_self s') = Some nl
      ∧ (is_Some (cfg_sections (config g) !! "metadata") →
         doc_lookup (config (st_self s')) "metadata" "emulator_start" = Some nl)
      ∧ (r = Ok () →
         st_fs s' = <[inifile g := File (ini_write (config (st_self s')))]> fs4).
Proof.
  intros g fs3 fs4 launched Habs Hes E1 E2 Hf Hb Hkept.
  assert (st_self s1 = g) as Hg1 by by apply ensure_payload_same_self in E1.
  assert (is_abs (path (st_self s1)) = true) as Habs1 by by rewrite Hg1.
  destruct (prepare_in_gamedir _ _ _ Habs1 E2) as (Hcwd & Hd & Hg2 & _).
  rewrite Hg1 in Hcwd, Hd, Hg2.
  assert (start autorun s = write_metadata launched) as Hstart.
  { rewrite (start_prepared _ _ _ _ _ E1 E2).
    rewrite (select_run_placeholder g) by done. simpl. rewrite Hcwd.
    rewrite (capture_text _ nl); simpl; [| |done].
    - f_equal. unfold launched, set_self, emit, set_fs. simpl.
      by rewrite Hg2, Hcwd, <- app_assoc.
    - unfold resolve. simpl. rewrite Hg2.
      by rewrite (path_join_abs _ (batfile g)) by by apply batfile_abs. }
  split_and!; [done..|].
  intros r s' Hrun. rewrite Hstart in Hrun.
  pose proof (write_metadata_self _ _ _ Hrun) as Hself.
  pose proof (write_metadata_fs _ _ _ Hrun) as [Hfs _].
  simpl in Hself, Hfs. rewrite Hself. split_and!.
  - done.
  - intros Hs. simpl. rewrite saved_config_lookup. simpl.
    rewrite decide_True by done. done.
  - intros ->. rewrite Hfs by done. unfold resolve. simpl.
    rewrite path_join_abs; [by rewrite Hself|].
    by apply is_abs_path_join.
Qed.

(** ** What is done with a fetched file *)

Lemma mkdir_chain_spec ks fs fs' :
  mkdir_chain fs ks = Some fs' →
  (∀ k, k ∈ ks → isdir fs' k = true)
  ∧ (∀ p n, fs !! p = Some n → fs' !! p = Some n).
Proof.
  revert fs. induction ks as [|k ks IH]; intros fs; simpl.
  - intros [= ->]. split; [by intros k []%elem_of_nil|done].
  - destruct (fs !! k) as [[|c]|] eqn:Hk; [|done|].
    + intros [Hd Hkeep]%IH. split; [|done].
      intros k' [->|Hin]%elem_of_cons; [|by apply Hd].
      unfold isdir. by rewrite (Hkeep _ _ Hk).
    + intros [Hd Hkeep]%IH. split.
      * intros k' [->|Hin]%elem_of_cons; [|by apply Hd].
        unfold isdir. by rewrite (Hkeep k Dir) by apply lookup_insert_eq.
      * intros p n Hp. apply Hkeep. rewrite lookup_insert_ne; [done|].
        intros ->. congruence.
Qed.

Lemma os_makedirs_ok p s s' :
  os_makedirs p s = (Ok (), s') →
  isdir (st_fs s') (resolve s p) = true
  ∧ (∀ q n, st_fs s !! q = Some n → st_fs s' !! q = Some n)
  ∧ st_cwd s' = st_cwd s ∧ st_self s' = st_self s ∧ st_trace s' = st_trace s.
Proof.
  unfold os_makedirs. destruct (mkdir_chain _ _) as [fs|] eqn:Hm; [|done].
  intros [= <-]. apply mkdir_chain_spec in Hm as [Hd Hkeep]. simpl.
  split_and!; try done. apply Hd. apply elem_of_app. right. by apply list_elem_of_singleton.
Qed.

Lemma endswith_lower (s suf : string) :
  endswith s suf = true → endswith (lower s) (lower suf) = true.
Proof.
  induction s as [|a s IH]; intros He.
  - change (endswith "" suf) with (String.eqb "" suf || false) in He.
    rewrite orb_false_r in He. apply String.eqb_eq in He as <-. done.
  - change (endswith (String a s) suf)
      with (String.eqb (String a s) suf || endswith s suf) in He.
    change (endswith (lower (String a s)) (lower suf))
      with (String.eqb (lower (String a s)) (lower suf)
            || endswith (lower s) (lower suf)).
    apply orb_true_iff in He as [He|He]; apply orb_true_iff.
    + left. apply String.eqb_eq in He as <-. by apply String.eqb_eq.
    + right. by apply IH.
Qed.

Lemma archive_name_lower (filename : string) :
  endswith (lower filename) "zip" = false →
  endswith filename "play" = false →
  archive_name filename = false.
Proof.
  intros Hz Hp. unfold archive_name. rewrite Hp, orb_false_r.
  apply orb_false_iff. split.
  - destruct (endswith filename "zip") eqn:E; [|done].
    apply endswith_lower in E. change (lower "zip") with "zip" in E. congruence.
  - destruct (endswith filename "ZIP") eqn:E; [|done].
    apply endswith_lower in E. change (lower "ZIP") with "zip" in E. congruence.
Qed.

(** C3 (amended). A fetched file [filename], present with content [c], is
    routed by the end of its name.  A name that ends in [zip], [ZIP] or
    [play], with or without a dot before it, is unpacked: the archive is
    extracted into the payload directory and a [dosbox.conf] file then
    found at the top of that directory is removed, so that none is left; an
    archive that cannot be read raises and changes no file.  A name that
    does not end in [play] and that, put in lower case, does not end in
    [zip] is copied: when the step returns, the payload directory exists
    and holds the content under the file's base name, and nothing was
    printed.  Nothing is said of a name that ends in another spelling of
    [zip]. *)
Theorem fetched_file_routing (s : State) (filename c : string) :
  let g := st_self s in
  let target := resolve s (gamedir g) in
  let conf := resolve s (path_join (gamedir g) "dosbox.conf") in
  st_fs s !! resolve s filename = Some (File c) →
  ((∃ p, filename = p ++ "zip" ∨ filename = p ++ "ZIP" ∨ filename = p ++ "play") →
   match zip_extractall c target (st_fs s) with
   | Some fs1 =>
       unpack_or_copy filename s
       = (Ok (),
          emit (set_fs s (if isfile fs1 conf then delete conf fs1 else fs1))
               (EvPrint ("Extracting " ++ filename)))
       ∧ isfile (if isfile fs1 conf then delete conf fs1 else fs1) conf = false
   | None =>
       unpack_or_copy filename s
       = (Raise BadZipFile, emit s (EvPrint ("Extracting " ++ filename)))
   end)
  ∧ (endswith (lower filename) "zip" = false →
     endswith filename "play" = false →
     ∀ s', unpack_or_copy filename s = (Ok (), s') →
       isdir (st_fs s') target = true
       ∧ st_fs s' !! resolve s (path_join (gamedir g) (last_segment filename))
         = Some (File c)
       ∧ st_trace s' = st_trace s).
Proof.
  intros g target conf Hfile. split.
  - intros Hend.
    assert (archive_name filename = true) as Ha.
    { unfold archive_name. rewrite !orb_true_iff, !endswith_spec. naive_solver. }
    subst target conf g. unfold unpack_or_copy, bind, get_self.
    rewrite Ha.
    unfold log, extract_file, bind, get_self, open_r, resolved, get_fs, put_fs,
      os_path_isfile, os_remove, ret, raise, resolve in *.
    cbn [st_cwd st_fs st_self emit set_fs]. rewrite Hfile.
    cbn [st_cwd st_fs st_self emit set_fs].
    destruct (zip_extractall c _ (st_fs s)) as [fs1|] eqn:Hz; [|done].
    cbn [st_cwd st_fs st_self emit set_fs].
    destruct (isfile fs1 _) eqn:Hc; cbn [st_cwd st_fs st_self emit set_fs].
    + rewrite Hc. split; [done|]. unfold isfile. by rewrite lookup_delete_eq.
    + done.
  - intros Hz Hp s'. pose proof (archive_name_lower _ Hz Hp) as Ha.
    subst target conf g. unfold unpack_or_copy, bind at 1.
    unfold get_self. rewrite Ha. unfold bind at 1.
    destruct (os_makedirs (gamedir (st_self s)) s) as [[[]|e] s1] eqn:Hm; [|done].
    apply os_makedirs_ok in Hm as (Hd & Hkeep & Hcwd & Hself & Htr).
    unfold shutil_copy, bind, open_r, os_path_isdir, resolved, raise, open_w,
      resolve in *.
    rewrite Hcwd, (Hkeep _ _ Hfile). cbv beta iota. rewrite ?Hcwd, Hd.
    cbv beta iota. rewrite ?Hcwd.
    case_match; [done|]. rewrite ?Hcwd. case_match; [done|].
    intros [= <-]. cbn [st_fs st_trace set_fs]. split_and!; [| |done].
    + unfold isdir in *.
      rewrite lookup_insert_ne; [done|]. intros Heq. rewrite Heq in *.
      repeat match goal with
             | Hx : _ || _ = false |- _ => apply orb_false_iff in Hx as [Hx ?]
             end.
      congruence.
    + by rewrite lookup_insert_eq.
Qed.

(** * Further properties of the code *)

(** ** Loading a title *)

Lemma py_split_tokens (s : string) :
  Forall (λ u, url_token u = true) (py_split s).
Proof.
  induction s as [|c r IH]; simpl; [constructor|].
  destruct (py_isspace c) eqn:Hc; [done|].
  assert (∀ w, forallb (λ c, negb (py_isspace c)) (list_ascii_of_string w) = true →
               url_token (String c w) = true) as Htok.
  { intros w Hw. unfold url_token. simpl. by rewrite Hc, Hw. }
  destruct r as [|c' r'].
  - constructor; [by apply Htok|constructor].
  - destruct (py_isspace c') eqn:Hc'.
    + constructor; [by apply Htok|done].
    + destruct (py_split (String c' r')) as [|w ws] eqn:Hsp.
      * constructor; [by apply Htok|constructor].
      * apply Forall_cons in IH as [Hw Hws]. constructor; [|done].
        apply Htok. unfold url_token in Hw. by apply andb_true_iff in Hw as [_ ?].
Qed.

Lemma Game_init_ok fs cwd p g :
  Game_init fs cwd p = Ok g →
  path g = p
  ∧ is_Some (cfg_sections (config g) !! "metadata")
  ∧ title g = metadata_get (config g) "title"
  ∧ year g = metadata_get (config g) "year"
  ∧ emulator_start g = metadata_get (config g) "emulator_start"
  ∧ dosbox_conf g = metadata_get (config g) "dosbox_conf"
  ∧ url g = loaded_url (metadata_get (config g) "url").
Proof.
  unfold Game_init. destruct (config_read _ _) as [c|e]; [|done].
  destruct (cfg_sections c !! "metadata") as [sec|] eqn:Hsec; [|done].
  intros [= <-]. unfold metadata_get. simpl. rewrite Hsec. simpl.
  split_and!; eauto.
Qed.

(** X1. A storage location without a [metadata.ini] file (none, or a
    directory in its place) cannot be loaded: the file is skipped silently
    and the lookup of the [metadata] section raises [KeyError]. *)
Theorem Game_init_without_document (fs : gmap string node) (cwd p : string) :
  isfile fs (path_join cwd (path_join p "metadata.ini")) = false →
  Game_init fs cwd p = Raise KeyError.
Proof.
  intros Hf. unfold Game_init, config_read, isfile in *.
  by destruct (fs !! _) as [[|text]|].
Qed.

(** X2. A document that parses but has no [metadata] section raises
    [KeyError] too, whatever its [DEFAULT] section and its other sections
    hold. *)
Theorem Game_init_without_section (fs : gmap string node) (cwd p text : string)
    (c : RawConfigParser) :
  fs !! path_join cwd (path_join p "metadata.ini") = Some (File text) →
  ini_parse text = Some c →
  cfg_sections c !! "metadata" = None →
  Game_init fs cwd p = Raise KeyError.
Proof.
  intros Hf Hp Hs. unfold Game_init, config_read. by rewrite Hf, Hp, Hs.
Qed.

(** X3. The URLs of a loaded title: [url] is [None] when the document has
    no [url] option, the empty string when the option is empty, and
    otherwise the list of the whitespace-separated words of the option,
    every one of them non-empty and free of whitespace; it is never a
    non-empty string. *)
Theorem Game_init_urls (fs : gmap string node) (cwd p : string) (g : Game) :
  Game_init fs cwd p = Ok g →
  match url g with
  | UNone => metadata_get (config g) "url" = None
  | UStr s => s = "" ∧ metadata_get (config g) "url" = Some ""
  | UList l =>
      Forall (λ u, url_token u = true) l
      ∧ ∃ text, metadata_get (config g) "url" = Some text ∧ text ≠ ""
                ∧ l = py_split text
  end.
Proof.
  intros (_ & _ & _ & _ & _ & _ & Hurl)%Game_init_ok. rewrite Hurl.
  destruct (metadata_get (config g) "url") as [u|]; simpl; [|done].
  destruct (String.eqb_spec u "") as [->|Hne]; simpl; [done|].
  split; [apply py_split_tokens|]. by exists u.
Qed.

(** ** Saving what was loaded *)

Lemma saved_value_set_config g c k :
  saved_value (set_config g c) k = saved_value g k.
Proof. reflexivity. Qed.

Lemma config_ext (c1 c2 : RawConfigParser) :
  cfg_defaults c1 = cfg_defaults c2 →
  (∀ name, is_Some (cfg_sections c1 !! name) ↔ is_Some (cfg_sections c2 !! name)) →
  (∀ name k, doc_lookup c1 name k = doc_lookup c2 name k) →
  c1 = c2.
Proof.
  destruct c1 as [d1 s1], c2 as [d2 s2]. simpl. intros -> Hdom Hl.
  f_equal. apply map_eq. intros name. specialize (Hdom name).
  unfold doc_lookup in Hl. simpl in Hl.
  destruct (s1 !! name) as [sec1|] eqn:H1, (s2 !! name) as [sec2|] eqn:H2.
  - f_equal. apply map_eq. intros k. specialize (Hl name k).
    by rewrite H1, H2 in Hl.
  - destruct Hdom as [Hdom _]. by destruct Hdom.
  - destruct Hdom as [_ Hdom]. by destruct Hdom.
  - done.
Qed.

Lemma saved_config_idem g :
  saved_config (set_config g (saved_config g)) = saved_config g.
Proof.
  apply config_ext.
  - by rewrite saved_config_defaults.
  - intros name. by rewrite saved_config_sections.
  - intros name k. rewrite saved_config_lookup. simpl.
    rewrite saved_value_set_config.
    case_decide as Hd; [|done]. destruct Hd as [-> Hs].
    destruct (saved_value g k) as [v|] eqn:Hv; [|done].
    rewrite saved_config_lookup, Hv. rewrite decide_True; [done|].
    split; [done|]. by apply saved_config_sections.
Qed.

Lemma open_w_twice p c s s1 :
  open_w p c s = (Ok (), s1) → open_w p c s1 = (Ok (), s1).
Proof.
  unfold open_w, resolve. case_match eqn:Hc; [done|]. intros [= <-]. simpl.
  apply orb_false_iff in Hc as [Hc Hp]. apply orb_false_iff in Hc as [Hl Hd].
  apply negb_false_iff in Hp. rewrite Hl. unfold isdir in *.
  rewrite lookup_insert_eq. simpl.
  rewrite lookup_insert_ne; [|intros Heq; rewrite <- Heq in Hp; congruence].
  rewrite Hp. simpl. unfold set_fs. simpl. by rewrite insert_insert_eq.
Qed.

Lemma set_self_id s : set_self s (st_self s) = s.
Proof. by destruct s. Qed.

(** X5. Saving is idempotent: right after a [write_metadata] that
    returned, a second one returns and leaves the record, the document, the
    files and the trace exactly as the first left them. *)
Theorem write_metadata_twice (s s1 : State) :
  write_metadata s = (Ok (), s1) →
  write_metadata s1 = (Ok (), s1).
Proof.
  intros Hrun.
  pose proof (write_metadata_self _ _ _ Hrun) as Hself.
  revert Hrun.
  destruct (cfg_sections (config (st_self s)) !! "metadata") as [sec|] eqn:Hs.
  - rewrite write_metadata_run by eauto. intros Hrun.
    assert (is_Some (cfg_sections (config (st_self s1)) !! "metadata")) as Hs1.
    { rewrite Hself. simpl. apply saved_config_sections. eauto. }
    rewrite write_metadata_run by done.
    assert (saved_config (st_self s1) = saved_config (st_self s)) as ->
      by (rewrite Hself; apply saved_config_idem).
    assert (set_config (st_self s1) (saved_config (st_self s)) = st_self s1) as ->
      by by rewrite Hself.
    assert (inifile (st_self s1) = inifile (st_self s)) as -> by by rewrite Hself.
    rewrite set_self_id. by apply open_w_twice in Hrun.
  - rewrite write_metadata_missing by done.
    rewrite saved_config_missing, set_config_id in Hself by done.
    case_match eqn:Hex; [done|]. intros Hrun.
    assert (cfg_sections (config (st_self s1)) !! "metadata" = None) as Hs1
      by by rewrite Hself.
    rewrite write_metadata_missing by done. cbv zeta. rewrite Hself, Hex.
    by apply open_w_twice in Hrun.
Qed.

Lemma loaded_url_saved (o : option string) :
  let u := loaded_url o in
  loaded_url (if url_truthy u
              then Some (py_join_nl (default [] (url_items u)))
              else o)
  = u.
Proof.
  destruct o as [text|]; simpl; [|done].
  destruct (String.eqb_spec text "") as [->|Hne]; simpl; [done|].
  destruct (py_split text) as [|w ws] eqn:Hsp; simpl.
  - apply string_eqb_false_iff in Hne. by rewrite Hne, Hsp.
  - pose proof (py_split_tokens text) as Htok. rewrite Hsp in Htok.
    assert (py_join_nl (w :: ws) ≠ "") as Hj.
    { apply py_join_nonempty. apply Forall_cons in Htok as [Hw _].
      unfold url_token in Hw. apply andb_true_iff in Hw as [Hw _].
      by apply negb_true_iff, string_eqb_false_iff in Hw. }
    apply string_eqb_false_iff in Hj. rewrite Hj. simpl.
    by rewrite py_split_join.
Qed.

(** X4. Load, save, load.  Saving a title as it was loaded and loading it
    again gives the same title, year, boot command, emulator configuration
    and URLs (the INI text written being read back as the document it was
    written from), although the document may have changed: the URLs are
    stored one per line and options inherited from [DEFAULT] are copied into
    the section. *)
Theorem reload_after_load (fs0 : gmap string node) (cwd0 p : string)
    (g : Game) (s s' : State) :
  Game_init fs0 cwd0 p = Ok g →
  st_self s = g →
  write_metadata s = (Ok (), s') →
  ini_parse (ini_write (config (st_self s'))) = Some (config (st_self s')) →
  ∃ g', Game_init (st_fs s') (st_cwd s') p = Ok g'
        ∧ title g' = title g ∧ year g' = year g
        ∧ emulator_start g' = emulator_start g
        ∧ dosbox_conf g' = dosbox_conf g
        ∧ url g' = url g.
Proof.
  intros (Hp & Hs & Ht & Hy & He & Hd & Hu)%Game_init_ok <- Hrun Hcodec.
  pose proof (write_metadata_self _ _ _ Hrun) as Hself.
  pose proof (write_metadata_fs _ _ _ Hrun) as [Hfs _].
  pose proof (write_metadata_same_cwd _ _ _ Hrun) as Hcwd.
  unfold same_cwd in Hcwd. specialize (Hfs eq_refl).
  assert (config (st_self s') = saved_config (st_self s)) as Hc by by rewrite Hself.
  rewrite Hc in *.
  eexists. split.
  { apply Game_init_fields; [|by apply saved_config_sections].
    unfold config_read. rewrite Hfs, Hcwd.
    unfold resolve, inifile. rewrite Hp, lookup_insert_eq. by rewrite Hcodec. }
  simpl. rewrite !metadata_get_saved by done.
  unfold saved_value. simpl. rewrite <- Ht, <- Hy, <- He, <- Hd.
  assert (∀ o : option string,
            match (if truthy o then Some (str_of o) else None) with
            | Some v => Some v
            | None => o
            end = o) as Hsame.
  { intros [v|]; [|done]. simpl. by destruct (String.eqb v ""). }
  rewrite !Hsame. split_and!; try done.
  rewrite Hu.
  pose proof (loaded_url_saved (metadata_get (config (st_self s)) "url")) as Hl.
  cbv zeta in Hl. etrans; [|exact Hl]. f_equal.
  by destruct (url_truthy _).
Qed.

(** X6. For a title that was loaded, [write_metadata] never raises
    [KeyError]: it returns, or raises [OSError] from opening
    [metadata.ini], and then no file has changed. *)
Theorem write_metadata_of_loaded (fs0 : gmap string node) (cwd0 p : string)
    (g : Game) (s : State) (r : outcome ()) (s' : State) :
  Game_init fs0 cwd0 p = Ok g →
  st_self s = g →
  write_metadata s = (r, s') →
  r = Ok () ∨ (r = Raise OSError ∧ st_fs s' = st_fs s).
Proof.
  intros (_ & Hs & _)%Game_init_ok <-.
  rewrite write_metadata_run by done. intros Hrun. run_prim Hrun; eauto.
Qed.

(** ** Fetching *)

Lemma fetched_urls_app (a b : list Event) :
  fetched_urls (a ++ b) = (fetched_urls a ++ fetched_urls b)%list.
Proof.
  induction a as [|e a IH]; [done|]. simpl. destruct e; simpl; by rewrite ?IH.
Qed.

Global Instance fetchless_po : PreOrder fetchless.
Proof.
  split.
  - intros s. exists []. by rewrite app_nil_r.
  - intros x y z (n1 & H1 & F1) (n2 & H2 & F2). exists (n1 ++ n2)%list.
    split; [by rewrite H2, H1, app_assoc|].
    by rewrite fetched_urls_app, F1, F2.
Qed.

Lemma same_trace_fetchless {A} (m : M A) :
  stable same_trace m → stable fetchless m.
Proof.
  intros Hm s r s' Hrun. exists []. rewrite app_nil_r. split; [|done].
  by eapply Hm.
Qed.

Lemma print_fetchless line : stable fetchless (log (EvPrint line)).
Proof. intros s r s'. unfold log. intros [= <- <-]. by exists [EvPrint line]. Qed.

Lemma unpack_or_copy_fetchless f : stable fetchless (unpack_or_copy f).
Proof.
  unfold unpack_or_copy, extract_file, shutil_copy.
  repeat first
    [ apply print_fetchless
    | solve [apply same_trace_fetchless; stable_prim]
    | stable_step ].
Qed.

Lemma download_one_fetch (u : string) (s : State)
    (r : outcome ()) (s' : State) :
  download_one u s = (r, s') →
  ∃ new, st_trace s' = (st_trace s ++ new)%list
         ∧ fetched_urls new
           = if isfile (st_fs s) (resolve s (unquote (last_segment u)))
             then [] else [u].
Proof.
  unfold download_one, bind at 1. unfold os_path_isfile.
  destruct (isfile _ _); simpl.
  - unfold bind at 1, ret. intros Hrun. by apply unpack_or_copy_fetchless in Hrun.
  - unfold bind at 1. unfold bind at 1, log at 1.
    unfold urlretrieve, bind at 1, log at 1.
    set (s2 := emit (emit s _) _).
    assert (st_trace s2 = (st_trace s ++ [EvPrint ("Downloading " ++ unquote (last_segment u));
                                          EvFetch u (unquote (last_segment u))])%list) as Ht2.
    { subst s2. simpl. by rewrite <- app_assoc. }
    destruct (urlopen u) as [body|].
    + destruct (open_w _ body s2) as [[[]|e] s3] eqn:Hw.
      * assert (st_trace s3 = st_trace s2) as Ht3
          by (revert Hw; clear; intros Hw; run_prim Hw; done).
        intros (new & Ht & Hf)%unpack_or_copy_fetchless.
        eexists. split; [by rewrite Ht, Ht3, Ht2, <- app_assoc|].
        rewrite fetched_urls_app, Hf. done.
      * assert (st_trace s3 = st_trace s2) as Ht3
          by (revert Hw; clear; intros Hw; run_prim Hw; done).
        intros [= <- <-]. eexists. split; [by rewrite Ht3, Ht2|done].
    + unfold raise. intros [= <- <-]. eexists. split; [exact Ht2|done].
Qed.


Lemma for_each_fetch (us : list string) (s : State) (r : outcome ()) (s' : State) :
  for_each us download_one s = (r, s') →
  ∃ new, st_trace s' = (st_trace s ++ new)%list
         ∧ sublist (fetched_urls new) us.
Proof.
  revert s. induction us as [|u us IH]; intros s; simpl.
  - unfold ret. intros [= <- <-]. exists []. by rewrite app_nil_r.
  - unfold bind. destruct (download_one u s) as [[[]|e] s1] eqn:H1.
    + apply download_one_fetch in H1 as (n1 & Ht1 & Hf1).
      intros (n2 & Ht2 & Hf2)%IH. exists (n1 ++ n2)%list.
      split; [by rewrite Ht2, Ht1, app_assoc|].
      rewrite fetched_urls_app, Hf1.
      destruct (isfile _ _); simpl; [by apply sublist_cons|by apply sublist_skip].
    + apply download_one_fetch in H1 as (n1 & Ht1 & Hf1).
      intros [= <- <-]. exists n1. split; [done|]. rewrite Hf1.
      destruct (isfile _ _); [apply sublist_nil_l|].
      apply sublist_skip, sublist_nil_l.
Qed.

(** X9. [download_files] fetches URLs of the title only, in the order of
    its list and none more often than it is listed: the URLs fetched form a
    sublist of [self.url], whatever the outcome. *)
Theorem download_files_fetch_order (s : State) (r : outcome ()) (s' : State)
    (us : list string) :
  url_items (url (st_self s)) = Some us →
  download_files s = (r, s') →
  ∃ new, st_trace s' = (st_trace s ++ new)%list
         ∧ sublist (fetched_urls new) us.
Proof.
  intros Hus. unfold download_files, bind, get_self, os_chdir. rewrite Hus.
  destruct (isdir _ _).
  - intros (new & Ht & Hf)%for_each_fetch. by exists new.
  - intros [= <- <-]. exists []. rewrite app_nil_r. split; [done|].
    apply sublist_nil_l.
Qed.


(** ** What [start] does and does not do *)

Global Instance downloading_po : PreOrder downloading.
Proof.
  split.
  - intros s. exists []. by rewrite app_nil_r.
  - intros x y z (n1 & H1 & F1) (n2 & H2 & F2). exists (n1 ++ n2)%list.
    split; [by rewrite H2, H1, app_assoc|by apply Forall_app].
Qed.

Lemma same_trace_downloading {A} (m : M A) :
  stable same_trace m → stable downloading m.
Proof.
  intros Hm s r s' Hrun. exists []. rewrite app_nil_r. split; [|done].
  by eapply Hm.
Qed.

Lemma log_downloading e : download_event e → stable downloading (log e).
Proof.
  intros He s r s'. unfold log. intros [= <- <-]. exists [e].
  split; [done|]. by constructor.
Qed.

Lemma ensure_payload_downloading : stable downloading ensure_payload.
Proof.
  unfold ensure_payload, download_files, download_one, urlretrieve,
    unpack_or_copy, extract_file, shutil_copy.
  repeat first
    [ solve [by apply log_downloading]
    | solve [apply same_trace_downloading; stable_prim]
    | apply stable_ret | apply stable_raise
    | apply stable_bind; [|intros ?]
    | apply stable_for_each; intros ?
    | match goal with
      | |- stable _ (if ?b then _ else _) => destruct b
      | |- stable _ (match ?x with _ => _ end) => destruct x
      end ].
Qed.

Lemma launch_count_app (a b : list Event) :
  launch_count (a ++ b) = (launch_count a + launch_count b)%nat.
Proof.
  induction a as [|e a IH]; [done|]. simpl. destruct e; simpl; by rewrite ?IH.
Qed.

Lemma launch_count_quiet (t : list Event) :
  Forall no_launch t → launch_count t = 0.
Proof. induction 1 as [|e t He _ IH]; [done|]. by destruct e. Qed.

(** X11. [start] starts at most one process, and exactly one when it
    returns normally; when it raises before the launch it has started
    none. *)
Theorem start_launches_once (autorun : bool) (s : State) (r : outcome ())
    (s' : State) :
  start autorun s = (r, s') →
  ∃ new, st_trace s' = (st_trace s ++ new)%list
         ∧ (launch_count new ≤ 1)%nat
         ∧ (r = Ok () → launch_count new = 1).
Proof.
  intros (quiet & Hq & Hrun)%start_launch.
  apply launch_count_quiet in Hq.
  destruct Hrun as [(e & -> & Ht)|(s1 & run & _ & _ & Ht & _)].
  - exists quiet. rewrite Hq. split_and!; [done|lia|done].
  - eexists. split; [exact Ht|].
    rewrite !launch_count_app, Hq. simpl.
    destruct (_ && _); simpl; split; lia.
Qed.

Lemma download_event_not_wait (t : list Event) :
  Forall download_event t → EvWait ∉ t.
Proof. intros Hq Hin. rewrite Forall_forall in Hq. by apply Hq in Hin. Qed.

(** X12. With autorun in force (requested, and the boot command set),
    [start] never waits for the emulator and never touches the record:
    whatever the outcome the record is as before and the trace has no
    wait, and on a normal return the launch is the last thing done. *)
Theorem autorun_fire_and_forget (s : State) (r : outcome ()) (s' : State) :
  truthy (emulator_start (st_self s)) = true →
  start true s = (r, s') →
  st_self s' = st_self s
  ∧ ∃ new, st_trace s' = (st_trace s ++ new)%list
           ∧ (EvWait ∉ new)
           ∧ (r = Ok () → ∃ pre args cwd, new = (pre ++ [EvPopen DOSBOX args cwd])%list).
Proof.
  intros Hes Hrun. apply start_cases in Hrun as [(e & -> & Hrun)|Hrun].
  - destruct Hrun as [Hrun|(s1 & H1 & Hrun)].
    { pose proof (ensure_payload_same_self _ _ _ Hrun) as Hg.
      apply ensure_payload_downloading in Hrun as (new & Ht & Hq).
      split; [done|]. exists new. split_and!; [done| |done].
      by apply download_event_not_wait. }
    pose proof (ensure_payload_same_self _ _ _ H1) as Hg1.
    apply ensure_payload_downloading in H1 as (new & Ht & Hq).
    unfold same_self in *.
    destruct Hrun as [Hrun|(args & s2 & H2 & Hrun)].
    + pose proof (prepare_same_self _ _ _ Hrun) as Hg2.
      apply prepare_same_trace in Hrun. unfold same_self, same_trace in *.
      split; [congruence|]. exists new. split_and!; [congruence| |done].
      by apply download_event_not_wait.
    + pose proof (prepare_same_self _ _ _ H2) as Hg2.
      apply prepare_same_trace in H2.
      pose proof (select_run_same_self _ _ _ _ Hrun) as Hg3.
      apply select_run_same_trace in Hrun. unfold same_self, same_trace in *.
      split; [congruence|]. exists new. split_and!; [congruence| |done].
      by apply download_event_not_wait.
  - destruct Hrun as (s1 & args & s2 & a & run & s3 & H1 & H2 & H3 & Hrun).
    pose proof (ensure_payload_same_self _ _ _ H1) as Hg1.
    pose proof (prepare_same_self _ _ _ H2) as Hg2.
    pose proof (select_run_same_self _ _ _ _ H3) as Hg3.
    pose proof (select_run_same_trace _ _ _ _ H3) as Ht3.
    pose proof (prepare_same_trace _ _ _ H2) as Ht2.
    apply ensure_payload_downloading in H1 as (new & Ht1 & Hq).
    apply select_run_ok in H3. unfold same_self, same_trace in *.
    rewrite Hg2, Hg1, Hes in H3. subst a. simpl in Hrun.
    destruct Hrun as [-> ->]. simpl. split; [congruence|].
    eexists. split_and!.
    + rewrite Ht3, Ht2, Ht1, <- app_assoc. reflexivity.
    + intros [Hin|Hin]%elem_of_app; [by apply download_event_not_wait in Hin|].
      by apply list_elem_of_singleton in Hin.
    + intros _. by do 3 eexists.
Qed.

(** X10. A title whose URL list is empty (an empty [url] option, or one of
    whitespace only) and whose payload directory is missing: [start]
    downloads nothing, creates no directory and raises [OSError] when it
    changes into the payload directory.  The storage location is an
    absolute path and exists. *)
Theorem start_with_no_urls (autorun : bool) (s : State) :
  let g := st_self s in
  url_items (url g) = Some [] →
  is_abs (path g) = true →
  isdir (st_fs s) (path g) = true →
  isdir (st_fs s) (gamedir g) = false →
  start autorun s = (Raise OSError, set_cwd s (path g)).
Proof.
  intros g Hus Habs Hp Hd. pose proof (gamedir_abs _ Habs) as Hga.
  unfold start. unfold bind at 1.
  unfold ensure_payload. unfold bind at 1. unfold get_self. fold g.
  unfold bind at 1. unfold os_path_isdir, resolve.
  rewrite (path_join_abs _ (gamedir g)) by done. rewrite Hd. simpl.
  unfold download_files. unfold bind at 1. unfold get_self. fold g.
  unfold bind at 1. unfold os_chdir, resolve.
  rewrite (path_join_abs _ (path g)) by done. rewrite Hp, Hus. simpl.
  unfold ret. unfold bind at 1. unfold prepare. unfold bind at 1.
  unfold get_self. simpl. fold g. unfold bind at 1. unfold os_chdir, resolve.
  simpl. rewrite (path_join_abs _ (gamedir g)) by done. by rewrite Hd.
Qed.

Global Instance same_settings_po : PreOrder same_settings.
Proof.
  split; [done|]. intros x y z. unfold same_settings.
  intros (?&?&?&?&?) (?&?&?&?&?). split_and!; congruence.
Qed.

Lemma same_self_settings s s' : same_self s s' → same_settings s s'.
Proof. unfold same_self, same_settings. by intros ->. Qed.

Lemma capture_same_settings : stable same_settings capture.
Proof.
  intros s r s' Hrun. unfold capture, bind at 1, get_self in Hrun.
  unfold bind at 1, os_path_isfile in Hrun.
  destruct (isfile _ _); [|by unfold ret in Hrun; simplify_eq].
  unfold bind at 1, open_r in Hrun.
  destruct (st_fs s !! _) as [[|text]|]; [by simplify_eq| |by simplify_eq].
  unfold bind at 1, put_self in Hrun.
  destruct (truthy (Some text)).
  - apply write_metadata_self in Hrun. unfold same_settings. by rewrite Hrun.
  - unfold ret in Hrun. by simplify_eq.
Qed.

(** X17. Whatever [start] does, of the record it changes at most the boot
    command and the document: storage location (hence identifier and
    payload directory), title, year, emulator configuration and URLs are
    after the call what they were before. *)
Theorem start_keeps_settings (autorun : bool) (s : State) (r : outcome ())
    (s' : State) :
  start autorun s = (r, s') →
  path (st_self s') = path (st_self s)
  ∧ identifier (st_self s') = identifier (st_self s)
  ∧ gamedir (st_self s') = gamedir (st_self s)
  ∧ title (st_self s') = title (st_self s)
  ∧ year (st_self s') = year (st_self s)
  ∧ dosbox_conf (st_self s') = dosbox_conf (st_self s)
  ∧ url (st_self s') = url (st_self s).
Proof.
  intros Hrun. assert (same_settings s s') as (Hp & ? & ? & ? & ?).
  { apply start_cases in Hrun as [(e & -> & Hrun)|Hrun].
    - apply same_self_settings.
      destruct Hrun as [Hrun|(s1 & H1 & Hrun)];
        [by apply ensure_payload_same_self in Hrun|].
      apply ensure_payload_same_self in H1.
      destruct Hrun as [Hrun|(args & s2 & H2 & Hrun)].
      + apply prepare_same_self in Hrun. by etrans.
      + apply prepare_same_self in H2. apply select_run_same_self in Hrun.
        etrans; [done|]. by etrans.
    - destruct Hrun as (s1 & args & s2 & a & run & s3 & H1 & H2 & H3 & Hrun).
      apply ensure_payload_same_self in H1. apply prepare_same_self in H2.
      apply select_run_same_self in H3.
      assert (same_self s s3) as H03 by (etrans; [done|]; by etrans).
      destruct a; simpl in Hrun.
      + destruct Hrun as [_ ->]. by apply same_self_settings.
      + apply capture_same_settings in Hrun. etrans; [|exact Hrun].
        by apply same_self_settings. }
  unfold identifier, gamedir. rewrite Hp. by split_and!.
Qed.

(** ** Interactive sessions *)

Lemma prepared_state s s1 s2 args :
  is_abs (path (st_self s)) = true →
  ensure_payload s = (Ok (), s1) →
  prepare s1 = (Ok args, s2) →
  st_self s2 = st_self s ∧ st_cwd s2 = gamedir (st_self s)
  ∧ isdir (st_fs s2) (gamedir (st_self s)) = true.
Proof.
  intros Habs E1 E2.
  assert (st_self s1 = st_self s) as Hg1 by by apply ensure_payload_same_self in E1.
  assert (is_abs (path (st_self s1)) = true) as Habs1 by by rewrite Hg1.
  destruct (prepare_in_gamedir _ _ _ Habs1 E2) as (Hcwd & Hd & Hg2 & _).
  rewrite Hg1 in Hcwd, Hd, Hg2. done.
Qed.

Lemma start_interactive autorun s s1 s2 args fs3 :
  is_abs (path (st_self s)) = true →
  ensure_payload s = (Ok (), s1) →
  prepare s1 = (Ok args, s2) →
  select_run autorun s2 = (Ok (false, "."), set_fs s2 fs3) →
  start autorun s = capture (after_session (st_self s) (st_trace s2) args fs3).
Proof.
  intros Habs E1 E2 Hsel.
  destruct (prepared_state _ _ _ _ Habs E1 E2) as (Hg2 & Hcwd & _).
  rewrite (start_prepared _ _ _ _ _ E1 E2), Hsel. simpl. rewrite Hcwd.
  f_equal. unfold after_session, emit, set_fs. simpl.
  by rewrite Hg2, Hcwd, <- app_assoc.
Qed.

Lemma after_session_batfile g trace args fs3 :
  is_abs (path g) = true →
  resolve (after_session g trace args fs3)
    (batfile (st_self (after_session g trace args fs3)))
  = batfile g.
Proof. intros Habs. unfold resolve. simpl. by apply path_join_abs, batfile_abs. Qed.

(** X13. An interactive session of a title with a boot command, from the
    state [s2] reached once the payload is ensured and the configuration
    written.  The script is written with the boot command alone (no
    preamble), the emulator is started on [.] without [-exit] and waited
    for.  Afterwards: when the script is gone, [start] returns with the
    record and the document as they were; when it holds a non-empty text,
    that text becomes the boot command and [write_metadata] is run on the
    record.  Storage locations are absolute paths. *)
Theorem interactive_session (s s1 s2 : State) (args : list string) :
  let g := st_self s in
  let fs3 := <[batfile g := File (str_of (emulator_start g))]> (st_fs s2) in
  let after := after_session g (st_trace s2) args fs3 in
  is_abs (path g) = true →
  truthy (emulator_start g) = true →
  ensure_payload s = (Ok (), s1) →
  prepare s1 = (Ok args, s2) →
  isdir (st_fs s2) (batfile g) = false →
  (isfile (st_fs after) (batfile g) = false → start false s = (Ok (), after))
  ∧ (∀ text, st_fs after !! batfile g = Some (File text) → text ≠ "" →
       start false s
       = write_metadata (set_self after (set_emulator_start g (Some text)))).
Proof.
  intros g fs3 after Habs Hes E1 E2 Hb.
  destruct (prepared_state _ _ _ _ Habs E1 E2) as (Hg2 & Hcwd & Hd).
  assert (start false s = capture after) as ->.
  { apply (start_interactive _ _ s1); try done.
    by apply select_run_interactive. }
  split.
  - intros Hf. apply capture_absent.
    unfold after. by rewrite after_session_batfile.
  - intros text Hf Hne. apply (capture_text after text); [|done].
    unfold after. by rewrite after_session_batfile.
Qed.

(** X14. An interactive session that leaves the script as [start] wrote it
    keeps the boot command: the record after the call is the record before
    with its document saved, and nothing else of it has changed.  Storage
    locations are absolute paths. *)
Theorem untouched_script_keeps_boot_command (s s1 s2 : State)
    (args : list string) (r : outcome ()) (s' : State) :
  let g := st_self s in
  let boot := str_of (emulator_start g) in
  let fs3 := <[batfile g := File boot]> (st_fs s2) in
  let after := after_session g (st_trace s2) args fs3 in
  is_abs (path g) = true →
  truthy (emulator_start g) = true →
  ensure_payload s = (Ok (), s1) →
  prepare s1 = (Ok args, s2) →
  isdir (st_fs s2) (batfile g) = false →
  st_fs after !! batfile g = Some (File boot) →
  start false s = (r, s') →
  st_self s' = set_config g (saved_config g)
  ∧ emulator_start (st_self s') = emulator_start g.
Proof.
  intros g boot fs3 after Habs Hes E1 E2 Hb Hkept.
  destruct (prepared_state _ _ _ _ Habs E1 E2) as (Hg2 & Hcwd & Hd).
  assert (start false s = capture after) as ->.
  { apply (start_interactive _ _ s1); try done.
    by apply select_run_interactive. }
  assert (boot ≠ "") as Hne.
  { subst boot. destruct (emulator_start g) as [b|]; [|done]. simpl in *.
    by apply negb_true_iff, string_eqb_false_iff in Hes. }
  rewrite (capture_text after boot);
    [|unfold after; by rewrite after_session_batfile|done].
  intros Hrun%write_metadata_self. simpl in Hrun.
  assert (set_emulator_start g (Some boot) = g) as Hsame.
  { subst boot. rewrite <- (truthy_some _ Hes). by destruct g. }
  rewrite Hsame in Hrun. by rewrite Hrun.
Qed.

Lemma select_run_existing g s autorun :
  is_abs (path g) = true →
  st_self s = g →
  st_cwd s = gamedir g →
  truthy (emulator_start g) = false →
  isfile (st_fs s) (batfile g) = true →
  select_run autorun s = (Ok (false, "."), s).
Proof.
  intros Habs Hself Hcwd Hes Hf.
  unfold select_run, bind, get_self, os_path_isfile, resolve, ret.
  rewrite Hself, Hes, Hcwd.
  rewrite (path_join_abs _ (batfile g)) by by apply batfile_abs.
  by rewrite Hf.
Qed.

(** X15. A title without boot command whose payload directory already has
    a [dosbox.bat] (one that came with the archive, say): [start] leaves
    that script alone, starts an interactive session on the files as they
    are, whatever [autorun] was asked, and the non-empty text found in the
    script afterwards becomes the boot command of the record, on which
    [write_metadata] is run.  Storage locations are absolute paths. *)
Theorem existing_script_adopted (autorun : bool) (s s1 s2 : State)
    (args : list string) (text : string) :
  let g := st_self s in
  let after := after_session g (st_trace s2) args (st_fs s2) in
  is_abs (path g) = true →
  truthy (emulator_start g) = false →
  ensure_payload s = (Ok (), s1) →
  prepare s1 = (Ok args, s2) →
  isfile (st_fs s2) (batfile g) = true →
  st_fs after !! batfile g = Some (File text) →
  text ≠ "" →
  start autorun s
  = write_metadata (set_self after (set_emulator_start g (Some text))).
Proof.
  intros g after Habs Hes E1 E2 Hf Hkept Hne.
  destruct (prepared_state _ _ _ _ Habs E1 E2) as (Hg2 & Hcwd & Hd).
  assert (start autorun s = capture after) as ->.
  { apply (start_interactive _ _ s1); try done.
    rewrite (select_run_existing g) by done. by destruct s2. }
  apply (capture_text after text); [|done].
  unfold after. by rewrite after_session_batfile.
Qed.

(** ** The emulator configuration *)

Lemma conffile_abs g : is_abs (path g) = true → is_abs (conffile g) = true.
Proof. intros Habs. apply is_abs_path_join, gamedir_abs, Habs. Qed.

Lemma conffile_parent g : is_abs (path g) = true → parent (conffile g) = gamedir g.
Proof.
  intros Habs. rewrite conffile_eq by done.
  apply (parent_app _ "dosbox.conf"); [|done]. by apply gamedir_nonempty.
Qed.

Lemma conffile_last g :
  is_abs (path g) = true → last_segment (conffile g) = "dosbox.conf".
Proof.
  intros Habs. rewrite conffile_eq by done.
  by apply (last_segment_app _ "dosbox.conf").
Qed.

(** X16. Lines 61-70, in an existing payload directory of an absolute
    storage location.  A set emulator configuration is written verbatim to
    [dosbox.conf] there (when that is not a directory) and the emulator is
    told to load it; with no configuration set no file is written or
    removed, so a [dosbox.conf] already in the payload directory stays, and
    the emulator gets [-fullscreen] only. *)
Theorem prepare_writes_config (s : State) :
  let g := st_self s in
  is_abs (path g) = true →
  isdir (st_fs s) (gamedir g) = true →
  (∀ conf, dosbox_conf g = Some conf → conf ≠ "" →
           isdir (st_fs s) (conffile g) = false →
           prepare s
           = (Ok ["-fullscreen"; "-userconf"; "-conf"; "dosbox.conf"],
              set_fs (set_cwd s (gamedir g))
                     (<[conffile g := File conf]> (st_fs s))))
  ∧ (truthy (dosbox_conf g) = false →
     prepare s = (Ok ["-fullscreen"], set_cwd s (gamedir g))).
Proof.
  intros g Habs Hd. pose proof (gamedir_abs _ Habs) as Hga.
  unfold prepare, bind, get_self, os_chdir, open_w, resolve, ret.
  cbv beta. fold g. rewrite (path_join_abs _ (gamedir g)) by done. rewrite Hd.
  cbn [st_cwd st_fs set_cwd]. split.
  - intros conf Hc Hne Hcd. rewrite Hc.
    apply string_eqb_false_iff in Hne. unfold truthy. rewrite Hne.
    change (negb false) with true. cbv beta iota. cbn [st_cwd st_fs set_cwd].
    change (str_of (Some conf)) with conf.
    rewrite (path_join_abs _ (conffile g)) by by apply conffile_abs.
    by rewrite conffile_last, conffile_parent, Hcd, Hd by done.
  - by intros ->.
Qed.

End Facts.

(** * Ordering titles *)

Lemma string_compare_refl (s : string) : String.compare s s = Eq.
Proof.
  induction s as [|c s IH]; simpl; [done|].
  unfold Ascii.compare. by rewrite N.compare_refl.
Qed.

(** X21. Titles are ordered by identifier alone: [>] is the converse of
    [<], no title is below itself, two titles are never both below and
    above each other, and they are unordered exactly when their identifiers
    (the last segments of their storage locations) are equal, whatever the
    directories they live in. *)
Theorem Game_order (a b : Game) :
  Game_gt a b = Game_lt b a
  ∧ Game_lt a a = false
  ∧ (Game_lt a b = true → Game_gt a b = false)
  ∧ (Game_lt a b = false ∧ Game_gt a b = false
     ↔ last_segment (path a) = last_segment (path b)).
Proof.
  unfold Game_lt, Game_gt, identifier. split_and!.
  - rewrite (String.compare_antisym (last_segment (path b))).
    by destruct (String.compare _ _).
  - by rewrite string_compare_refl.
  - by destruct (String.compare _ _).
  - split.
    + intros [Hlt Hgt]. apply String.compare_eq_iff.
      by destruct (String.compare _ _).
    + intros ->. by rewrite string_compare_refl.
Qed.

(** * Locating the emulator *)

Section Locating.

Import Dosbox.
Context `{!Host}.

Lemma try_path_find (p : string) (rest : list string) :
  List.find answers_version (p :: rest)
  = match try_path p with
    | Some q => Some q
    | None => List.find answers_version rest
    end.
Proof. unfold try_path. simpl. by destruct (answers_version p). Qed.

Lemma get_dosbox_path_find :
  get_dosbox_path
  = match List.find answers_version candidates with
    | Some p => (Found p, [])
    | None =>
        (if input_returns then SysExit 1 else DOSBoxNotFound error, [error])
    end.
Proof.
  unfold get_dosbox_path, candidates, try_windows.
  cbn [app]. rewrite !try_path_find.
  destruct (try_path "dosbox"); [done|].
  destruct (try_path "/Applications/dosbox.app/Contents/MacOS/DOSBox"); [done|].
  destruct (try_path "open -a DOSBox"); [done|].
  destruct (environ "ProgramFiles(x86)") as [pf|]; [|by destruct input_returns].
  destruct (glob _) as [|p ps]; [by destruct input_returns|].
  rewrite try_path_find. destruct (try_path p); [done|].
  by destruct input_returns.
Qed.

(** X18. [get_dosbox_path] returns the first of its candidates that
    answers [--version], in the order [dosbox], the macOS application, the
    command [open -a DOSBox], the first Windows install; when none answers
    it prints the explanation and exits with status 1, or raises
    [DOSBoxNotFound] where [input] fails. *)
Theorem get_dosbox_path_first_answering :
  get_dosbox_path
  = match List.find answers_version candidates with
    | Some p => (Found p, [])
    | None =>
        (if input_returns then SysExit 1 else DOSBoxNotFound error, [error])
    end.
Proof. exact get_dosbox_path_find. Qed.

(** X19. A command that [get_dosbox_path] returns has answered
    [--version] and is one of the candidates; nothing was printed, and the
    candidates before it did not answer. *)
Theorem get_dosbox_path_sound (p : string) (out : list string) :
  get_dosbox_path = (Found p, out) →
  answers_version p = true ∧ out = []
  ∧ ∃ before after, candidates = (before ++ p :: after)%list
                    ∧ Forall (λ q, answers_version q = false) before.
Proof.
  rewrite get_dosbox_path_find.
  destruct (List.find answers_version candidates) as [q|] eqn:Hfind;
    [|by destruct input_returns].
  intros [= -> <-].
  split; [by apply find_some in Hfind as [_ ?]|]. split; [done|].
  clear -Hfind. induction candidates as [|c cs IH]; [done|].
  simpl in Hfind. destruct (answers_version c) eqn:Hc.
  - injection Hfind as ->. by exists [], cs.
  - destruct (IH Hfind) as (before & after & -> & Hb).
    exists (c :: before), after. split; [done|]. by constructor.
Qed.

(** X20. On Windows only the first match of the pattern is probed: when
    the three fixed candidates do not answer and the first match does not
    either, no emulator is found, whatever other installs the pattern
    matches. *)
Theorem get_dosbox_path_first_match_only (pf p : string) (others : list string) :
  answers_version "dosbox" = false →
  answers_version "/Applications/dosbox.app/Contents/MacOS/DOSBox" = false →
  answers_version "open -a DOSBox" = false →
  environ "ProgramFiles(x86)" = Some pf →
  glob (pf ++ "\dosbox*\dosbox.exe") = p :: others →
  answers_version p = false →
  get_dosbox_path
  = (if input_returns then SysExit 1 else DOSBoxNotFound error, [error]).
Proof.
  intros H1 H2 H3 Hpf Hglob Hp.
  unfold get_dosbox_path, try_windows, try_path.
  rewrite H1, H2, H3, Hpf, Hglob, Hp. by destruct input_returns.
Qed.

End Locating.

(** * The theorems on the concrete machine *)

Import Sample MoreSamples.

Lemma ensure_payload_existing_witness :
  isdir disk "/games/foo/dosbox_drive_c" = true
  ∧ @ensure_payload (env idle) (machine foo) = (Ok (), machine foo).
Proof.
  split; [reflexivity|].
  apply (@ensure_payload_existing (env idle) (machine foo)). reflexivity.
Defined.

Lemma autorun_forced_off_witness :
  truthy (emulator_start blank) = false
  ∧ @start (env idle) true (machine blank) = @start (env idle) false (machine blank).
Proof.
  split; [reflexivity|].
  apply (@autorun_forced_off (env idle) (machine blank)). reflexivity.
Defined.


Lemma autorun_run_target_witness :
  let s := machine foo in
  let s2 := set_cwd s "/games/foo/dosbox_drive_c" in
  truthy (emulator_start (st_self s)) = true
  ∧ @ensure_payload (env idle) s = (Ok (), s)
  ∧ prepare s = (Ok ["-fullscreen"], s2)
  ∧ isfile_from (st_fs s2) (st_cwd s2) "FOO.EXE" = true
  ∧ @start (env idle) true s
    = (Ok (), emit s2 (EvPopen "dosbox" ["FOO.EXE"; "-fullscreen"; "-exit"]
                         "/games/foo/dosbox_drive_c")).
Proof.
  intros s s2.
  assert (truthy (emulator_start (st_self s)) = true) as Hes by reflexivity.
  assert (@ensure_payload (env idle) s = (Ok (), s)) as E1
    by (vm_compute; reflexivity).
  assert (prepare s = (Ok ["-fullscreen"], s2)) as E2
    by (vm_compute; reflexivity).
  assert (isfile_from (st_fs s2) (st_cwd s2) "FOO.EXE" = true) as Hf
    by (vm_compute; reflexivity).
  split_and!; [exact Hes|exact E1|exact E2|exact Hf|].
  exact (proj1 (@autorun_run_target (env idle) s s s2 ["-fullscreen"]
                  Hes E1 E2) Hf).
Defined.

(** A boot command that names a file outside the payload directory, and
    one that DOSBox cannot run: the file is there, so it is the run target
    and no command script is written. *)
Lemma file_outside_payload_is_run :
  let g := foo_booting "/games/foo/a.zip" in
  let s' := snd (@start (env idle) true (machine g)) in
  spec_inside_payload g "/games/foo/a.zip" = false
  ∧ @start (env idle) true (machine g) = (Ok (), s')
  ∧ st_trace s'
    = [EvPopen "dosbox" ["/games/foo/a.zip"; "-fullscreen"; "-exit"]
         "/games/foo/dosbox_drive_c"]
  ∧ st_fs s' = disk
  ∧ st_fs s' !! batfile g = None.
Proof. intros g s'. split_and!; vm_compute; reflexivity. Qed.

(** The lookup of line 74 on the sample disk, from the payload directory of
    [foo]: [.], [..] and empty segments are followed, through directories
    only. *)
Example boot_command_lookup :
  let found := isfile_from disk "/games/foo/dosbox_drive_c" in
  found "FOO.EXE" = true
  ∧ found "./FOO.EXE" = true
  ∧ found ".//FOO.EXE" = true
  ∧ found "../dosbox_drive_c/FOO.EXE" = true
  ∧ found "../a.zip" = true
  ∧ found "//games/foo/a.zip" = true
  ∧ found "/../games/foo/a.zip" = true
  ∧ found "nosuch/../FOO.EXE" = false
  ∧ found "FOO.EXE/" = false
  ∧ found "FOO.EXE/." = false
  ∧ found "FOO.EXE/../FOO.EXE" = false
  ∧ found "." = false
  ∧ found "BAR.EXE" = false.
Proof. intros found. split_and!; vm_compute; reflexivity. Qed.

(** A boot command spelled with a leading [./] takes the shortcut like the
    bare name, and is passed to DOSBox as it is spelled. *)
Example dotted_boot_command_is_run :
  let g := foo_booting "./FOO.EXE" in
  let s' := snd (@start (env idle) true (machine g)) in
  @start (env idle) true (machine g) = (Ok (), s')
  ∧ st_trace s'
    = [EvPopen "dosbox" ["./FOO.EXE"; "-fullscreen"; "-exit"]
         "/games/foo/dosbox_drive_c"]
  ∧ st_fs s' = disk.
Proof. intros g s'. split_and!; vm_compute; reflexivity. Qed.

Lemma placeholder_script_adopted_witness :
  let s := machine blank in
  let s2 := set_cwd s "/games/blank/dosbox_drive_c" in
  is_abs (path blank) = true
  ∧ truthy (emulator_start blank) = false
  ∧ @ensure_payload (env idle) s = (Ok (), s)
  ∧ prepare s = (Ok ["-fullscreen"], s2)
  ∧ isfile (st_fs s2) (batfile blank) = false
  ∧ isdir (st_fs s2) (batfile blank) = false
  ∧ idle (<[batfile blank := File nl]> (st_fs s2)) !! batfile blank
    = Some (File nl)
  ∧ ∀ r s', @start (env idle) true s = (r, s') →
            emulator_start (st_self s') = Some nl.
Proof.
  intros s s2.
  assert (is_abs (path blank) = true) as Habs by reflexivity.
  assert (truthy (emulator_start blank) = false) as Hes by reflexivity.
  assert (@ensure_payload (env idle) s = (Ok (), s)) as E1
    by (vm_compute; reflexivity).
  assert (prepare s = (Ok ["-fullscreen"], s2)) as E2
    by (vm_compute; reflexivity).
  assert (isfile (st_fs s2) (batfile blank) = false) as Hf
    by (vm_compute; reflexivity).
  assert (isdir (st_fs s2) (batfile blank) = false) as Hb
    by (vm_compute; reflexivity).
  assert (idle (<[batfile blank := File nl]> (st_fs s2)) !! batfile blank
          = Some (File nl)) as Hkept by (vm_compute; reflexivity).
  split_and!; [done..|].
  intros r s' Hrun.
  destruct (@placeholder_script_adopted (env idle) true s s s2 ["-fullscreen"]
              Habs Hes E1 E2 Hf Hb Hkept) as (_ & _ & _ & Hall).
  by destruct (Hall r s' Hrun) as [? _].
Defined.

Lemma start_without_url_witness :
  @Game_init (env idle) disk "/" "/games/bar" = Ok bar
  ∧ metadata_get (config bar) "url" = None
  ∧ isdir disk "/games/bar" = true
  ∧ isdir disk "/games/bar/dosbox_drive_c" = false
  ∧ @start (env idle) true (machine bar)
    = (Raise TypeError, set_cwd (machine bar) "/games/bar").
Proof.
  assert (@Game_init (env idle) disk "/" "/games/bar" = Ok bar) as Hinit
    by (vm_compute; reflexivity).
  assert (metadata_get (config bar) "url" = None) as Hget
    by (vm_compute; reflexivity).
  assert (isdir disk "/games/bar" = true) as Hp by (vm_compute; reflexivity).
  assert (isdir disk "/games/bar/dosbox_drive_c" = false) as Hd
    by (vm_compute; reflexivity).
  split_and!; [done..|].
  exact (proj2 (@start_without_url (env idle) disk "/" "/games/bar" bar true
                  (machine bar) Hinit Hget eq_refl Hp Hd)).
Defined.

Lemma save_frame_witness :
  let s := machine foo_no_urls in
  let s' := snd (@write_metadata (env idle) s) in
  @write_metadata (env idle) s = (Ok (), s')
  ∧ doc_lookup (config (st_self s')) "metadata" "collection"
    = Some "softwarelibrary"
  ∧ doc_lookup (config (st_self s')) "metadata" "url" = Some "http://x/a.zip".
Proof.
  intros s s'.
  assert (@write_metadata (env idle) s = (Ok (), s')) as Hrun
    by (vm_compute; reflexivity).
  split; [done|].
  destruct (@save_frame (env idle) s (Ok ()) s' Hrun)
    as (Hother & _ & _ & Hurl & _).
  split.
  - rewrite Hother; [reflexivity|]. right. vm_compute.
    intros Hin. repeat (apply elem_of_cons in Hin as [?|Hin]; [done|]).
    by apply elem_of_nil in Hin.
  - by rewrite Hurl.
Defined.

Lemma save_then_reload_witness :
  let s := machine foo_full in
  let s' := snd (@write_metadata (env idle) s) in
  is_Some (cfg_sections (config foo_full) !! "metadata")
  ∧ @write_metadata (env idle) s = (Ok (), s')
  ∧ IniText.parse (IniText.write (config (st_self s')))
    = Some (config (st_self s'))
  ∧ ∃ g', @Game_init (env idle) (st_fs s') (st_cwd s') "/games/foo" = Ok g'
          ∧ title g' = Some "Foo II"
          ∧ emulator_start g' = Some ("FOO.EXE" ++ nl ++ "BAR.EXE")
          ∧ url g' = UList ["http://x/a.zip"; "http://x/b.zip"].
Proof.
  intros s s'.
  assert (is_Some (cfg_sections (config foo_full) !! "metadata")) as Hs
    by (eexists; vm_compute; reflexivity).
  assert (@write_metadata (env idle) s = (Ok (), s')) as Hrun
    by (vm_compute; reflexivity).
  assert (IniText.parse (IniText.write (config (st_self s')))
          = Some (config (st_self s'))) as Hcodec
    by (vm_compute; reflexivity).
  split_and!; [done..|].
  destruct (@save_then_reload (env idle) s s' Hs Hrun Hcodec)
    as (g' & Hinit & Ht & _ & Hb & _ & Hu & _).
  exists g'. split_and!; [done|by rewrite Ht|by rewrite Hb|].
  rewrite (Hu _ eq_refl); [done|done|].
  by repeat constructor.
Defined.

Lemma fetched_file_routing_witness :
  let s' := snd (@unpack_or_copy (env idle) "DATA.EXE" fetching) in
  st_fs fetching !! resolve fetching "DATA.EXE" = Some (File "MZ")
  ∧ endswith (lower "DATA.EXE") "zip" = false
  ∧ endswith "DATA.EXE" "play" = false
  ∧ @unpack_or_copy (env idle) "DATA.EXE" fetching = (Ok (), s')
  ∧ st_fs s' !! "/games/foo/dosbox_drive_c/DATA.EXE" = Some (File "MZ").
Proof.
  intros s'.
  assert (st_fs fetching !! resolve fetching "DATA.EXE" = Some (File "MZ"))
    as Hfile by (vm_compute; reflexivity).
  assert (endswith (lower "DATA.EXE") "zip" = false) as Hz
    by (vm_compute; reflexivity).
  assert (endswith "DATA.EXE" "play" = false) as Hp
    by (vm_compute; reflexivity).
  assert (@unpack_or_copy (env idle) "DATA.EXE" fetching = (Ok (), s'))
    as Hrun by (vm_compute; reflexivity).
  split_and!; [exact Hfile|exact Hz|exact Hp|exact Hrun|].
  destruct (@fetched_file_routing (env idle) fetching "DATA.EXE" "MZ" Hfile)
    as (_ & Hcopy).
  destruct (Hcopy Hz Hp s' Hrun) as (_ & Hc & _).
  exact Hc.
Defined.

(** An archive fetched under a name that ends in [zip] without a dot is
    unpacked, and so is one with the extension [.play], where the
    classification as the specification words it has both copied. *)
Lemma dotless_zip_is_unpacked :
  let s := set_fs fetching disk_with_unzip in
  let s' := snd (@unpack_or_copy (env idle) "unzip" s) in
  spec_archive_like "unzip" = false
  ∧ @unpack_or_copy (env idle) "unzip" s = (Ok (), s')
  ∧ st_trace s' = [EvPrint "Extracting unzip"]
  ∧ st_fs s' !! "/games/foo/dosbox_drive_c/GAME.EXE" = Some (File "MZ")
  ∧ st_fs s' !! "/games/foo/dosbox_drive_c/unzip" = None
  ∧ spec_archive_like "game.play" = false
  ∧ archive_name "game.play" = true.
Proof. intros s s'. split_and!; vm_compute; reflexivity. Qed.

(** The spelling that line 118 does not list: [GAME.Zip] is not unpacked
    but copied as it is. *)
Example mixed_case_zip_is_copied :
  let s' := snd (@unpack_or_copy (env idle) "GAME.Zip" fetching) in
  archive_name "GAME.Zip" = false
  ∧ @unpack_or_copy (env idle) "GAME.Zip" fetching = (Ok (), s')
  ∧ st_fs s' !! "/games/foo/dosbox_drive_c/GAME.Zip" = Some (File "PK")
  ∧ st_fs s' !! "/games/foo/dosbox_drive_c/GAME.EXE" = None.
Proof. intros s'. split_and!; vm_compute; reflexivity. Qed.

Lemma emptied_urls_come_back :
  let s := machine foo_no_urls in
  let s' := snd (@write_metadata (env idle) s) in
  url (st_self s) = UList []
  ∧ @write_metadata (env idle) s = (Ok (), s')
  ∧ @Game_init (env idle) (st_fs s') (st_cwd s') "/games/foo" = Ok foo
  ∧ url foo = UList ["http://x/a.zip"]
  ∧ url foo ≠ url (st_self s).
Proof. intros s s'. split_and!; try (vm_compute; reflexivity). done. Qed.

(** C1. The interactive capture, run on [foo] (boot command [FOO.EXE])
    with a session that empties the command script: [start] returns, the
    document in memory and [metadata.ini] are as before, but the boot
    command of the record is now the empty string; a later [start] of the
    same record with [autorun=True] launches an interactive session, without
    [-exit]. *)
Theorem emptied_script_clears_boot_command :
  let s := machine foo in
  let s' := snd (@start (env truncating) false s) in
  emulator_start (st_self s) = Some "FOO.EXE"
  ∧ @start (env truncating) false s = (Ok (), s')
  ∧ st_fs s' !! batfile foo = Some (File "")
  ∧ emulator_start (st_self s') = Some ""
  ∧ config (st_self s') = config (st_self s)
  ∧ st_fs s' !! inifile foo = st_fs s !! inifile foo
  ∧ st_trace (snd (@start (env idle) true s'))
    = (st_trace s'
       ++ [EvPopen "dosbox" ["."; "-fullscreen"] "/games/foo/dosbox_drive_c";
           EvWait])%list.
Proof. intros s s'. split_and!; vm_compute; reflexivity. Qed.

(** With the text codec above, the boot command adopted from an edited
    script comes back from [metadata.ini] without its final newline: the
    reader strips the values it reads. *)
Example reloaded_boot_command_is_stripped :
  let s' := snd (@start (env appending) false (machine foo)) in
  emulator_start (st_self s') = Some ("FOO.EXE" ++ nl ++ "BAR.EXE" ++ nl)
  ∧ ∃ g', @Game_init (env idle) (st_fs s') (st_cwd s') "/games/foo" = Ok g'
          ∧ emulator_start g' = Some ("FOO.EXE" ++ nl ++ "BAR.EXE").
Proof.
  intros s'. split; [vm_compute; reflexivity|].
  eexists. split; [vm_compute; reflexivity|]. reflexivity.
Qed.

(** The same session, the user appending a line instead: the new text is
    the boot command of the record and of the saved document. *)
Example edited_script_is_adopted :
  let s := machine foo in
  let s' := snd (@start (env appending) false s) in
  let text := "FOO.EXE" ++ nl ++ "BAR.EXE" ++ nl in
  @start (env appending) false s = (Ok (), s')
  ∧ emulator_start (st_self s') = Some text
  ∧ doc_lookup (config (st_self s')) "metadata" "emulator_start" = Some text
  ∧ st_fs s' !! inifile foo = Some (File (IniText.write (config (st_self s')))).
Proof. intros s s' text. split_and!; vm_compute; reflexivity. Qed.

(** * The further properties on the concrete machine *)

Lemma Game_init_without_document_witness :
  isfile disk (path_join "/" (path_join "/games/none" "metadata.ini")) = false
  ∧ @Game_init (env idle) disk "/" "/games/none" = Raise KeyError.
Proof.
  split; [reflexivity|].
  apply (@Game_init_without_document (env idle) disk "/" "/games/none").
  reflexivity.
Defined.

Lemma Game_init_without_section_witness :
  odd_disk !! path_join "/" (path_join "/games/odd" "metadata.ini")
  = Some (File (IniText.write odd_doc))
  ∧ IniText.parse (IniText.write odd_doc) = Some odd_doc
  ∧ cfg_sections odd_doc !! "metadata" = None
  ∧ @Game_init (env idle) odd_disk "/" "/games/odd" = Raise KeyError.
Proof.
  assert (odd_disk !! path_join "/" (path_join "/games/odd" "metadata.ini")
          = Some (File (IniText.write odd_doc))) as Hf by (vm_compute; reflexivity).
  assert (IniText.parse (IniText.write odd_doc) = Some odd_doc) as Hp
    by (vm_compute; reflexivity).
  assert (cfg_sections odd_doc !! "metadata" = None) as Hs
    by (vm_compute; reflexivity).
  split_and!; [done..|].
  exact (@Game_init_without_section (env idle) odd_disk "/" "/games/odd"
           _ odd_doc Hf Hp Hs).
Defined.

Lemma Game_init_urls_witness :
  @Game_init (env idle) disk "/" "/games/foo" = Ok foo
  ∧ Forall (λ u, url_token u = true) ["http://x/a.zip"].
Proof.
  assert (@Game_init (env idle) disk "/" "/games/foo" = Ok foo) as Hinit
    by (vm_compute; reflexivity).
  split; [done|].
  exact (proj1 (@Game_init_urls (env idle) disk "/" "/games/foo" foo Hinit)).
Defined.

Lemma reload_after_load_witness :
  let s' := snd (@write_metadata (env idle) (machine foo)) in
  @Game_init (env idle) disk "/" "/games/foo" = Ok foo
  ∧ @write_metadata (env idle) (machine foo) = (Ok (), s')
  ∧ IniText.parse (IniText.write (config (st_self s')))
    = Some (config (st_self s'))
  ∧ ∃ g', @Game_init (env idle) (st_fs s') (st_cwd s') "/games/foo" = Ok g'
          ∧ emulator_start g' = Some "FOO.EXE"
          ∧ url g' = UList ["http://x/a.zip"].
Proof.
  intros s'.
  assert (@Game_init (env idle) disk "/" "/games/foo" = Ok foo) as Hinit
    by (vm_compute; reflexivity).
  assert (@write_metadata (env idle) (machine foo) = (Ok (), s')) as Hrun
    by (vm_compute; reflexivity).
  assert (IniText.parse (IniText.write (config (st_self s')))
          = Some (config (st_self s'))) as Hcodec by (vm_compute; reflexivity).
  split_and!; [done..|].
  destruct (@reload_after_load (env idle) disk "/" "/games/foo" foo
              (machine foo) s' Hinit eq_refl Hrun Hcodec)
    as (g' & Hg' & _ & _ & He & _ & Hu).
  exists g'. by split_and!.
Defined.

Lemma write_metadata_twice_witness :
  let s1 := snd (@write_metadata (env idle) (machine foo_full)) in
  @write_metadata (env idle) (machine foo_full) = (Ok (), s1)
  ∧ @write_metadata (env idle) s1 = (Ok (), s1).
Proof.
  intros s1.
  assert (@write_metadata (env idle) (machine foo_full) = (Ok (), s1)) as Hrun
    by (vm_compute; reflexivity).
  split; [done|].
  exact (@write_metadata_twice (env idle) (machine foo_full) s1 Hrun).
Defined.

Lemma write_metadata_of_loaded_witness :
  let s := set_fs (machine foo) (<["/games/foo" := File ""]> disk) in
  @Game_init (env idle) disk "/" "/games/foo" = Ok foo
  ∧ @write_metadata (env idle) s = (Raise OSError, snd (@write_metadata (env idle) s))
  ∧ st_fs (snd (@write_metadata (env idle) s)) = st_fs s.
Proof.
  intros s.
  assert (@Game_init (env idle) disk "/" "/games/foo" = Ok foo) as Hinit
    by (vm_compute; reflexivity).
  assert (@write_metadata (env idle) s
          = (Raise OSError, snd (@write_metadata (env idle) s))) as Hrun
    by (vm_compute; reflexivity).
  split_and!; [done..|].
  by destruct (@write_metadata_of_loaded (env idle) disk "/" "/games/foo" foo s
                 _ _ Hinit eq_refl Hrun) as [?|[_ ?]].
Defined.


Lemma download_files_fetch_order_witness :
  let s := machine foo_two_urls in
  let us := ["http://x/b.zip"; "http://x/a.zip"] in
  let s' := snd (@download_files (env idle) s) in
  url_items (url (st_self s)) = Some us
  ∧ @download_files (env idle) s = (Raise URLError, s')
  ∧ ∃ new, st_trace s' = (st_trace s ++ new)%list
           ∧ sublist (fetched_urls new) us.
Proof.
  intros s us s'.
  assert (url_items (url (st_self s)) = Some us) as Hus
    by (vm_compute; reflexivity).
  assert (@download_files (env idle) s = (Raise URLError, s')) as Hrun
    by (vm_compute; reflexivity).
  split; [exact Hus|]. split; [exact Hrun|].
  exact (@download_files_fetch_order (env idle) s (Raise URLError) s' us
           Hus Hrun).
Defined.


Lemma start_with_no_urls_witness :
  let s := machine bar_empty_url in
  let g := st_self s in
  url_items (url g) = Some []
  ∧ is_abs (path g) = true
  ∧ isdir (st_fs s) (path g) = true
  ∧ isdir (st_fs s) (gamedir g) = false
  ∧ @start (env idle) true s = (Raise OSError, set_cwd s (path g)).
Proof.
  intros s g.
  assert (url_items (url g) = Some []) as H1 by (vm_compute; reflexivity).
  assert (is_abs (path g) = true) as H2 by (vm_compute; reflexivity).
  assert (isdir (st_fs s) (path g) = true) as H3 by (vm_compute; reflexivity).
  assert (isdir (st_fs s) (gamedir g) = false) as H4
    by (vm_compute; reflexivity).
  split_and!; [exact H1|exact H2|exact H3|exact H4|].
  exact (@start_with_no_urls (env idle) true s H1 H2 H3 H4).
Defined.

Lemma start_launches_once_witness :
  let s := machine foo in
  let s' := snd (@start (env idle) true s) in
  @start (env idle) true s = (Ok (), s')
  ∧ ∃ new, st_trace s' = (st_trace s ++ new)%list
           ∧ (launch_count new ≤ 1)%nat
           ∧ (Ok () = Ok () → launch_count new = 1).
Proof.
  intros s s'.
  assert (@start (env idle) true s = (Ok (), s')) as Hrun
    by (vm_compute; reflexivity).
  split; [exact Hrun|].
  exact (@start_launches_once (env idle) true s (Ok ()) s' Hrun).
Defined.

Lemma autorun_fire_and_forget_witness :
  let s := machine foo in
  let s' := snd (@start (env idle) true s) in
  truthy (emulator_start (st_self s)) = true
  ∧ @start (env idle) true s = (Ok (), s')
  ∧ st_self s' = st_self s
  ∧ ∃ new, st_trace s' = (st_trace s ++ new)%list
           ∧ (EvWait ∉ new)
           ∧ (Ok () = Ok () →
              ∃ pre args cwd,
                new = (pre ++ [EvPopen (@DOSBOX (env idle)) args cwd])%list).
Proof.
  intros s s'.
  assert (truthy (emulator_start (st_self s)) = true) as Hes
    by (vm_compute; reflexivity).
  assert (@start (env idle) true s = (Ok (), s')) as Hrun
    by (vm_compute; reflexivity).
  split; [exact Hes|]. split; [exact Hrun|].
  exact (@autorun_fire_and_forget (env idle) s (Ok ()) s' Hes Hrun).
Defined.

Lemma start_keeps_settings_witness :
  let s := machine foo in
  let s' := snd (@start (env appending) false s) in
  @start (env appending) false s = (Ok (), s')
  ∧ path (st_self s') = path (st_self s)
  ∧ identifier (st_self s') = identifier (st_self s)
  ∧ gamedir (st_self s') = gamedir (st_self s)
  ∧ title (st_self s') = title (st_self s)
  ∧ year (st_self s') = year (st_self s)
  ∧ dosbox_conf (st_self s') = dosbox_conf (st_self s)
  ∧ url (st_self s') = url (st_self s).
Proof.
  intros s s'.
  assert (@start (env appending) false s = (Ok (), s')) as Hrun
    by (vm_compute; reflexivity).
  split; [exact Hrun|].
  exact (@start_keeps_settings (env appending) false s (Ok ()) s' Hrun).
Defined.

Lemma interactive_session_witness :
  let s := machine foo in
  let s2 := set_cwd s "/games/foo/dosbox_drive_c" in
  let text := "FOO.EXE" ++ nl ++ "BAR.EXE" ++ nl in
  let after :=
    @after_session (env appending) foo [] ["-fullscreen"]
      (<[batfile foo := File "FOO.EXE"]> (st_fs s2)) in
  is_abs (path foo) = true
  ∧ truthy (emulator_start foo) = true
  ∧ @ensure_payload (env appending) s = (Ok (), s)
  ∧ prepare s = (Ok ["-fullscreen"], s2)
  ∧ isdir (st_fs s2) (batfile foo) = false
  ∧ st_fs after !! batfile foo = Some (File text)
  ∧ @start (env appending) false s
    = @write_metadata (env appending)
        (set_self after (set_emulator_start foo (Some text))).
Proof.
  intros s s2 text after.
  assert (is_abs (path foo) = true) as Habs by reflexivity.
  assert (truthy (emulator_start foo) = true) as Hes by reflexivity.
  assert (@ensure_payload (env appending) s = (Ok (), s)) as E1
    by (vm_compute; reflexivity).
  assert (prepare s = (Ok ["-fullscreen"], s2)) as E2
    by (vm_compute; reflexivity).
  assert (isdir (st_fs s2) (batfile foo) = false) as Hb
    by (vm_compute; reflexivity).
  assert (st_fs after !! batfile foo = Some (File text)) as Hf
    by (vm_compute; reflexivity).
  split_and!; [done..|].
  apply (proj2 (@interactive_session (env appending) s s s2 ["-fullscreen"]
                  Habs Hes E1 E2 Hb) text Hf).
  done.
Defined.

Lemma untouched_script_keeps_boot_command_witness :
  let s := machine foo in
  let s2 := set_cwd s "/games/foo/dosbox_drive_c" in
  let s' := snd (@start (env idle) false s) in
  is_abs (path foo) = true
  ∧ truthy (emulator_start foo) = true
  ∧ @ensure_payload (env idle) s = (Ok (), s)
  ∧ prepare s = (Ok ["-fullscreen"], s2)
  ∧ isdir (st_fs s2) (batfile foo) = false
  ∧ @start (env idle) false s = (Ok (), s')
  ∧ emulator_start (st_self s') = Some "FOO.EXE".
Proof.
  intros s s2 s'.
  assert (is_abs (path foo) = true) as Habs by reflexivity.
  assert (truthy (emulator_start foo) = true) as Hes by reflexivity.
  assert (@ensure_payload (env idle) s = (Ok (), s)) as E1
    by (vm_compute; reflexivity).
  assert (prepare s = (Ok ["-fullscreen"], s2)) as E2
    by (vm_compute; reflexivity).
  assert (isdir (st_fs s2) (batfile foo) = false) as Hb
    by (vm_compute; reflexivity).
  assert (@start (env idle) false s = (Ok (), s')) as Hrun
    by (vm_compute; reflexivity).
  split_and!; [done..|].
  assert (st_fs (@after_session (env idle) foo (st_trace s2) ["-fullscreen"]
                   (<[batfile foo := File (str_of (emulator_start foo))]> (st_fs s2)))
          !! batfile foo = Some (File (str_of (emulator_start foo)))) as Hkept
    by (vm_compute; reflexivity).
  exact (proj2 (@untouched_script_keeps_boot_command (env idle) s s s2
                  ["-fullscreen"] (Ok ()) s' Habs Hes E1 E2 Hb Hkept Hrun)).
Defined.

Lemma existing_script_adopted_witness :
  let s := mkState blank disk_with_script "/" [] in
  let s2 := set_cwd s "/games/blank/dosbox_drive_c" in
  let after :=
    @after_session (env idle) blank [] ["-fullscreen"] (st_fs s2) in
  is_abs (path blank) = true
  ∧ truthy (emulator_start blank) = false
  ∧ @ensure_payload (env idle) s = (Ok (), s)
  ∧ prepare s = (Ok ["-fullscreen"], s2)
  ∧ isfile (st_fs s2) (batfile blank) = true
  ∧ st_fs after !! batfile blank = Some (File "GAME.EXE")
  ∧ @start (env idle) true s
    = @write_metadata (env idle)
        (set_self after (set_emulator_start blank (Some "GAME.EXE"))).
Proof.
  intros s s2 after.
  assert (is_abs (path blank) = true) as Habs by reflexivity.
  assert (truthy (emulator_start blank) = false) as Hes by reflexivity.
  assert (@ensure_payload (env idle) s = (Ok (), s)) as E1
    by (vm_compute; reflexivity).
  assert (prepare s = (Ok ["-fullscreen"], s2)) as E2
    by (vm_compute; reflexivity).
  assert (isfile (st_fs s2) (batfile blank) = true) as Hf
    by (vm_compute; reflexivity).
  assert (st_fs after !! batfile blank = Some (File "GAME.EXE")) as Hkept
    by (vm_compute; reflexivity).
  split_and!; [done..|].
  apply (@existing_script_adopted (env idle) true s s s2 ["-fullscreen"]
           "GAME.EXE" Habs Hes E1 E2 Hf Hkept).
  done.
Defined.

Lemma prepare_writes_config_witness :
  let s := machine foo_full in
  is_abs (path foo_full) = true
  ∧ isdir (st_fs s) (gamedir foo_full) = true
  ∧ isdir (st_fs s) (conffile foo_full) = false
  ∧ prepare s
    = (Ok ["-fullscreen"; "-userconf"; "-conf"; "dosbox.conf"],
       set_fs (set_cwd s "/games/foo/dosbox_drive_c")
         (<["/games/foo/dosbox_drive_c/dosbox.conf" :=
              File ("[cpu]" ++ nl ++ "cycles=max")]> disk)).
Proof.
  intros s.
  assert (is_abs (path foo_full) = true) as Habs by reflexivity.
  assert (isdir (st_fs s) (gamedir foo_full) = true) as Hd
    by (vm_compute; reflexivity).
  assert (isdir (st_fs s) (conffile foo_full) = false) as Hc
    by (vm_compute; reflexivity).
  split_and!; [done..|].
  apply (proj1 (@prepare_writes_config s Habs Hd)); [reflexivity| |exact Hc].
  done.
Defined.

Lemma get_dosbox_path_sound_witness :
  @Dosbox.get_dosbox_path Dosbox.on_path = (Dosbox.Found "dosbox", [])
  ∧ @Dosbox.answers_version Dosbox.on_path "dosbox" = true.
Proof.
  assert (@Dosbox.get_dosbox_path Dosbox.on_path = (Dosbox.Found "dosbox", []))
    as Hrun by reflexivity.
  split; [done|].
  exact (proj1 (@get_dosbox_path_sound Dosbox.on_path "dosbox" [] Hrun)).
Defined.

Lemma get_dosbox_path_first_match_only_witness :
  @Dosbox.answers_version Dosbox.two_installs "C:\PF\dosbox-0.74\dosbox.exe" = true
  ∧ @Dosbox.get_dosbox_path Dosbox.two_installs
    = (Dosbox.DOSBoxNotFound Dosbox.error, [Dosbox.error]).
Proof.
  split; [reflexivity|].
  apply (@get_dosbox_path_first_match_only Dosbox.two_installs "C:\PF"
           "C:\PF\dosbox-0.73\dosbox.exe" ["C:\PF\dosbox-0.74\dosbox.exe"]);
    reflexivity.
Defined.
